(** * bot.py: the IBGE/SIDRA capture pipeline

    A shallow embedding of [bot.py] and the properties of its two
    transformations ([extrair_lista_de_metadados],
    [processar_dados_numericos]), of the writer
    ([gravar_arquivo_parquet]) and of the two stages and [main].

    Decoded JSON is an inductive type; a Python [dict] is an association
    list (insertion order is what pandas turns into column order).  The
    effectful functions live in a state monad over the files on disk, the
    lines printed and the requests sent; the network and the disk are
    parameters of that part. *)

From Stdlib Require Import Ascii String Floats.SpecFloat.
From stdpp Require Import base option list strings gmap.

#[local] Set Warnings "-register-all".

Open Scope string_scope.
Open Scope list_scope.

(** ** Python values obtained from [response.json()] *)

(** [str] is a sequence of characters; a [dict] keeps its items in
    insertion order and its keys are strings (they come from JSON
    objects). *)
Inductive json : Type :=
| JNull
| JBool (b : bool)
| JInt (n : Z)
| JFloat (f : spec_float)
| JStr (s : string)
| JList (items : list json)
| JDict (fields : list (string * json)).

(** The exception classes the program meets.  [Exception] and
    [RequestException] are the classes its [except] clauses name. *)
Inductive exn : Type :=
| Exception | AttributeError | IndexError | KeyError | TypeError | ValueError
| OSError | FileNotFoundError | RequestException | JSONDecodeError
| RecursionError.

(** What a call does: it returns, it raises, or it reaches a shape of
    input on which the pandas constructor is not described here. *)
Inductive result (A : Type) : Type :=
| Ok (a : A)
| Raise (e : exn)
| OutOfModel.
Arguments Ok {A} a.
Arguments Raise {A} e.
Arguments OutOfModel {A}.

(** [bool(v)]: what [if v:] and [not v] test. *)
Definition truthy (v : json) : bool :=
  match v with
  | JNull => false
  | JBool b => b
  | JInt n => negb (n =? 0)%Z
  | JFloat (S754_zero _) => false
  | JFloat _ => true
  | JStr s => negb (String.eqb s EmptyString)
  | JList items => match items with [] => false | _ => true end
  | JDict fields => match fields with [] => false | _ => true end
  end.

Definition is_str (v : json) : bool :=
  match v with JStr _ => true | _ => false end.

Definition is_dict (v : json) : bool :=
  match v with JDict _ => true | _ => false end.

(** Neither a list nor a dict: pandas' [is_list_like] is false on these. *)
Definition is_scalar (v : json) : bool :=
  match v with JList _ | JDict _ => false | _ => true end.

(** [k in d] and [d[k]] on the items of a dict. *)
Fixpoint field {V} (k : string) (fields : list (string * V)) : option V :=
  match fields with
  | [] => None
  | (k', v) :: rest => if String.eqb k k' then Some v else field k rest
  end.

Definition keys {V} (fields : list (string * V)) : list string :=
  fields.*1.

(** [obj.get(chave)]: only a dict has the method; a missing key gives
    [None]. *)
Definition py_get (obj : json) (chave : string) : result json :=
  match obj with
  | JDict fields => Ok (default JNull (field chave fields))
  | _ => Raise AttributeError
  end.

(** ** Strings: [str.replace] and [str.capitalize] *)

(** [s.replace(old, '')] for a one-character [old]. *)
Fixpoint str_replace_char (old : ascii) (s : string) : string :=
  match s with
  | EmptyString => EmptyString
  | String c rest =>
      if Ascii.eqb c old then str_replace_char old rest
      else String c (str_replace_char old rest)
  end.

(** Case mapping of the ASCII letters: what [str.upper] and [str.lower]
    do to a character below 128. *)
Definition chr_upper (c : ascii) : ascii :=
  let n := nat_of_ascii c in
  if (97 <=? n)%nat && (n <=? 122)%nat then ascii_of_nat (n - 32) else c.

Definition chr_lower (c : ascii) : ascii :=
  let n := nat_of_ascii c in
  if (65 <=? n)%nat && (n <=? 90)%nat then ascii_of_nat (n + 32) else c.

Fixpoint str_lower (s : string) : string :=
  match s with
  | EmptyString => EmptyString
  | String c rest => String (chr_lower c) (str_lower rest)
  end.

Definition chr_is_ascii (c : ascii) : bool := (nat_of_ascii c <? 128)%nat.

Fixpoint str_is_ascii (s : string) : bool :=
  match s with
  | EmptyString => true
  | String c rest => chr_is_ascii c && str_is_ascii rest
  end.

(** First character upper-cased, all the others lower-cased, letter by
    letter. *)
Definition ascii_capitalize (s : string) : string :=
  match s with
  | EmptyString => EmptyString
  | String c rest => String (chr_upper c) (str_lower rest)
  end.

(** [s.capitalize()].  On a string of ASCII characters it is
    [ascii_capitalize].  Python maps the case of every other character by
    the Unicode tables (an accented letter changes case, some characters
    change length); that mapping is not described here, so the call is
    left out of the model on such a string. *)
Definition str_capitalize (s : string) : result string :=
  if str_is_ascii s then Ok (ascii_capitalize s) else OutOfModel.

(** ** pandas *)

(** A frame: the column labels and the rows, each row holding one cell per
    column; [None] is a missing value (NaN).  Dtypes are not modelled: a
    cell holds the Python value that was put there. *)
Record DataFrame : Type := mkDataFrame {
  columns : list json;
  rows : list (list (option json))
}.

(** [pd.DataFrame()] *)
Definition DataFrame_vazio : DataFrame := mkDataFrame [] [].

(** [df.empty]: one of the axes has length 0. *)
Definition df_empty (df : DataFrame) : bool :=
  match columns df, rows df with
  | [], _ | _, [] => true
  | _, _ => false
  end.

(** The union of the keys of the records, each key at its first
    occurrence (pandas' [fast_unique_multiple_list_gen] with
    [sort=False]). *)
Definition add_unique (seen : list string) (k : string) : list string :=
  if decide (k ∈ seen) then seen else seen ++ [k].

Definition unique_keys {V} (records : list (list (string * V))) : list string :=
  foldl (λ seen r, foldl add_unique seen (keys r)) [] records.

(** One row of [dicts_to_array]: the value under each column, NaN where
    the record has no such key. *)
Definition record_row {V} (cols : list string) (r : list (string * V))
  : list (option V) :=
  map (λ c, field c r) cols.

(** The items of the dicts of [data], or [None] when an element is not a
    dict. *)
Fixpoint as_records (data : list json) : option (list (list (string * json))) :=
  match data with
  | [] => Some []
  | JDict fields :: rest => cons fields <$> as_records rest
  | _ :: rest => None
  end.

(** [pd.DataFrame(data)] and [pd.DataFrame(data, columns=cols)] for a list
    [data].  The constructor looks at [data[0]]:
    - a dict: the rows are records; every element must then have
      [.keys()], and the columns are the union of the keys;
    - a scalar, with scalars only: one column, labelled [0] unless
      [columns] (of length 1) names it;
    other shapes (lists of lists, mixed lists, records with [columns=])
    are left out. *)
Definition pd_DataFrame (data : list json) (cols : option (list json))
  : result DataFrame :=
  match data with
  | [] => Ok (mkDataFrame (default [] cols) [])
  | JDict _ :: _ =>
      match cols with
      | Some _ => OutOfModel
      | None =>
          match as_records data with
          | None => Raise AttributeError
          | Some records =>
              let ks := unique_keys records in
              Ok (mkDataFrame (JStr <$> ks) (record_row ks <$> records))
          end
      end
  | JList _ :: _ => OutOfModel
  | _ :: _ =>
      if forallb is_scalar data then
        match cols with
        | None => Ok (mkDataFrame [JInt 0] ((λ v, [Some v]) <$> data))
        | Some [c] => Ok (mkDataFrame [c] ((λ v, [Some v]) <$> data))
        | Some _ => Raise ValueError
        end
      else OutOfModel
  end.

(** [df.rename(columns=mapper)] with a dict [mapper]: a label that is a
    key of the mapper is replaced by the value under it, any other label
    stays.  A replacement that is a list or a dict is left out. *)
Definition rename_label (mapper : list (string * json)) (lbl : json) : json :=
  match lbl with
  | JStr k => default lbl (field k mapper)
  | _ => lbl
  end.

Definition df_rename (df : DataFrame) (mapper : json) : result DataFrame :=
  match mapper with
  | JDict fields =>
      let renamed := rename_label fields <$> columns df in
      if forallb is_scalar renamed
      then Ok (mkDataFrame renamed (rows df))
      else OutOfModel
  | _ => Raise TypeError
  end.

(** ** PathExtractor: [extrair_lista_de_metadados] *)

(** The loop over [caminho_chaves].  [Ok None] is the early
    [return pd.DataFrame()] taken when a lookup yields [None]; [Ok (Some v)]
    is the value of [dados_atuais] when the loop ends. *)
Fixpoint percorrer (dados_atuais : json) (caminho_chaves : list string)
  : result (option json) :=
  match caminho_chaves with
  | [] => Ok (Some dados_atuais)
  | chave :: resto =>
      match py_get dados_atuais chave with
      | Ok JNull => Ok None
      | Ok v => percorrer v resto
      | Raise e => Raise e
      | OutOfModel => OutOfModel
      end
  end.

Definition extrair_lista_de_metadados (dados_json : json)
    (caminho_chaves : list string) : result DataFrame :=
  match percorrer dados_json caminho_chaves with
  | Raise e => Raise e
  | OutOfModel => OutOfModel
  | Ok None => Ok DataFrame_vazio
  | Ok (Some lista_de_dados) =>
      match lista_de_dados with
      | JList ((_ :: _) as itens) =>
          if forallb is_str itens then
            match last caminho_chaves with
            | None => Raise IndexError
            | Some chave =>
                match str_capitalize (str_replace_char "s"%char chave) with
                | Ok nome_coluna => pd_DataFrame itens (Some [JStr nome_coluna])
                | Raise e => Raise e
                | OutOfModel => OutOfModel
                end
            end
          else pd_DataFrame itens None
      | _ => Ok DataFrame_vazio
      end
  end.

(** ** SeriesNormalizer: [processar_dados_numericos] *)

(** [json_data] is whatever the endpoint answered.  [len] raises on
    numbers and booleans, [json_data[1:]] raises on a dict (a [KeyError]
    from Python 3.12 on, where slices are hashable), and
    [pd.DataFrame] refuses a string. *)
Definition processar_dados_numericos (json_data : json) : result DataFrame :=
  if negb (truthy json_data) then Ok DataFrame_vazio
  else
    match json_data with
    | JList (nomes_colunas :: dados_reais) =>
        match dados_reais with
        | [] => Ok DataFrame_vazio
        | _ =>
            match pd_DataFrame dados_reais None with
            | Ok df => df_rename df nomes_colunas
            | Raise e => Raise e
            | OutOfModel => OutOfModel
            end
        end
    | JDict fields =>
        if (length fields <? 2)%nat then Ok DataFrame_vazio else Raise TypeError
    | JStr s =>
        if (String.length s <? 2)%nat then Ok DataFrame_vazio
        else Raise ValueError
    | _ => Raise TypeError
    end.

(** ** The world outside: disk, standard output, network *)

(** The lines the program prints, one constructor per [print] call. *)
Inductive message : Type :=
| MsgBuscando (url : string)            (* Buscando dados em: {url} *)
| MsgCapturados                         (* Dados capturados com sucesso! *)
| MsgErroConexao                        (* -> Erro de conexão ao acessar a URL: {e} *)
| MsgErroJson                           (* -> Erro: A resposta da API não é um JSON válido. *)
| MsgVazio (nome_arquivo : string)      (* DataFrame para '{nome_arquivo}' está vazio. Arquivo não gerado. *)
| MsgSalvo (caminho : string)           (* Arquivo '{caminho}' salvo com sucesso! *)
| MsgErroSalvar (caminho : string)      (* Ocorreu um erro ao salvar o arquivo '{caminho}': {e} *)
| MsgEtapa1                             (* --- Etapa 1: CAPTURANDO METADADOS DA TABELA --- *)
| MsgSeparador                          (* --- *)
| MsgEtapa2                             (* --- Etapa 2: CAPTURANDO DADOS NUMÉRICOS DAS VARIÁVEIS --- *)
| MsgVariaveisLido (caminho : string)   (* Arquivo de variáveis lido com sucesso de: {caminho} *)
| MsgVariaveisAusente (caminho : string) (* Erro: Arquivo '{caminho}' não encontrado. ... *)
| MsgBuscandoVariavel (nome id : string) (* Buscando dados para a variável: '{nome}' (ID: {id}) *)
| MsgInicio                             (* --- INÍCIO DO PROCESSO DO BOT --- *)
| MsgEtapa2Cancelada                    (* Etapa 2 não pode ser executada pois a Etapa 1 falhou. *)
| MsgFim.                               (* --- FIM DO PROCESSO DO BOT --- *)

(** What the program can observe and change: the Parquet files on disk
    (by path), the directories it made, and three logs, oldest entry
    first: the lines printed, the URLs requested and the paths handed to
    [to_parquet]. *)
Record State : Type := mkState {
  disk : gmap string DataFrame;
  dirs : gset string;
  stdout : list message;
  requests : list string;
  writes : list string
}.

(** The answer to one GET: the request fails ([requests.get] or
    [raise_for_status] raises), or a body arrives.  [response.json()]
    then decodes the body ([HttpBody (Some v)]), or finds that it is not
    JSON and raises [requests.exceptions.JSONDecodeError]
    ([HttpBody None]), or lets through what [json.loads] raises besides
    its own [JSONDecodeError] ([HttpJsonRaises e]: a plain [ValueError]
    on an integer literal longer than the interpreter's digit limit, a
    [RecursionError] on a body nested too deep). *)
Inductive http_outcome : Type :=
| HttpFail
| HttpBody (body : option json)
| HttpJsonRaises (e : exn).

(** What the program does not decide: the answer of the server to a
    request, whether a write or a [makedirs] succeeds (each may depend on
    everything that happened before), and [str()] of a value that is not
    a string. *)
Record World : Type := mkWorld {
  http_get : State → string → http_outcome;
  to_parquet_ok : State → string → DataFrame → bool;
  makedirs_ok : State → string → bool;
  py_str : json → string
}.

(** Computations: they read the world, thread the state and may raise. *)
Definition M (A : Type) : Type := World → State → result A * State.

#[global] Instance M_ret : MRet M := λ A a _ st, (Ok a, st).

#[global] Instance M_bind : MBind M := λ A B f m w st,
  match m w st with
  | (Ok a, st') => f a w st'
  | (Raise e, st') => (Raise e, st')
  | (OutOfModel, st') => (OutOfModel, st')
  end.

(** A pure call inside a computation. *)
Definition lift {A} (r : result A) : M A := λ _ st, (r, st).

(** [except cls:] catches [e] when [e] is an instance of [cls]. *)
Definition exn_isinstance (e cls : exn) : bool :=
  match cls, e with
  | Exception, _ => true
  | RequestException, (RequestException | JSONDecodeError) => true
  | OSError, (OSError | FileNotFoundError) => true
  | AttributeError, AttributeError | IndexError, IndexError
  | KeyError, KeyError | TypeError, TypeError | ValueError, ValueError
  | FileNotFoundError, FileNotFoundError
  | JSONDecodeError, JSONDecodeError => true
  | _, _ => false
  end.

(** [try: body  except c1: h1  except c2: h2 ...]: the first clause whose
    class matches handles the exception. *)
Fixpoint find_handler {A} (e : exn) (handlers : list (exn * M A)) : option (M A) :=
  match handlers with
  | [] => None
  | (cls, h) :: rest => if exn_isinstance e cls then Some h else find_handler e rest
  end.

Definition try_except {A} (body : M A) (handlers : list (exn * M A)) : M A :=
  λ w st,
    match body w st with
    | (Raise e, st') =>
        match find_handler e handlers with
        | Some h => h w st'
        | None => (Raise e, st')
        end
    | other => other
    end.

Fixpoint for_each {A} (items : list A) (body : A → M unit) : M unit :=
  match items with
  | [] => mret tt
  | x :: rest => body x ;; for_each rest body
  end.

Definition print (m : message) : M unit := λ _ st,
  (Ok tt, mkState (disk st) (dirs st) (stdout st ++ [m]) (requests st) (writes st)).

(** [requests.get(url)] followed by [response.raise_for_status()]: the
    response is returned with what decoding its body will give. *)
Definition requests_get (url : string) : M http_outcome := λ w st,
  let st' :=
    mkState (disk st) (dirs st) (stdout st) (requests st ++ [url]) (writes st) in
  match http_get w st url with
  | HttpFail => (Raise RequestException, st')
  | response => (Ok response, st')
  end.

(** [response.json()] *)
Definition response_json (response : http_outcome) : M json :=
  lift (match response with
        | HttpBody (Some v) => Ok v
        | HttpBody None => Raise JSONDecodeError
        | HttpJsonRaises e => Raise e
        | HttpFail => Raise RequestException   (* no response: not reached *)
        end).

(** [df.to_parquet(caminho, engine='pyarrow', index=False)].  The call
    is logged whether it succeeds or not.  A write that fails is taken to
    be refused before the file is opened (a missing directory, a
    permission, a frame pyarrow cannot convert); what a write interrupted
    midway leaves at [caminho] is not described. *)
Definition to_parquet (df : DataFrame) (caminho : string) : M unit := λ w st,
  let ws := writes st ++ [caminho] in
  if to_parquet_ok w st caminho df
  then (Ok tt, mkState (<[caminho := df]> (disk st)) (dirs st) (stdout st)
                 (requests st) ws)
  else (Raise OSError, mkState (disk st) (dirs st) (stdout st) (requests st) ws).

(** [pd.read_parquet(caminho)] *)
Definition read_parquet (caminho : string) : M DataFrame := λ _ st,
  match disk st !! caminho with
  | Some df => (Ok df, st)
  | None => (Raise FileNotFoundError, st)
  end.

(** [os.makedirs(pasta, exist_ok=True)] *)
Definition makedirs (pasta : string) : M unit := λ w st,
  if makedirs_ok w st pasta
  then (Ok tt, mkState (disk st) ({[pasta]} ∪ dirs st) (stdout st) (requests st)
                 (writes st))
  else (Raise OSError, st).

(** [os.path.join(a, b)] on POSIX. *)
Definition ends_with_slash (s : string) : bool :=
  match last (list_ascii_of_string s) with
  | Some c => Ascii.eqb c "/"%char
  | None => false
  end.

Definition os_path_join (a b : string) : string :=
  match b with
  | String "/"%char _ => b
  | _ =>
      if String.eqb a EmptyString || ends_with_slash a then a +:+ b
      else a +:+ "/" +:+ b
  end.

(** The text [f"{v}"] puts for [v]. *)
Definition str_value (w : World) (v : json) : string :=
  match v with JStr s => s | _ => py_str w v end.

(** The same for a cell of a row of a frame: a missing value prints as
    [nan]. *)
Definition str_cell (w : World) (x : option json) : string :=
  match x with Some v => str_value w v | None => "nan" end.

Definition format_value (v : json) : M string := λ w st, (Ok (str_value w v), st).
Definition format_cell (x : option json) : M string := λ w st, (Ok (str_cell w x), st).

(** ** Constants *)

Definition URL_IPCA_METADADOs : string :=
  "https://sidra.ibge.gov.br/Ajax/Json/Tabela/1/1737?versao=-1".
Definition PASTA_SAIDA : string := "saida_dados".

(** ** [capturar_dados_api] *)

(** [requests.exceptions.JSONDecodeError] is a [RequestException], so the
    first clause also takes a body that is not JSON; any other exception
    of [response.json()] is not a [RequestException] and leaves the
    function. *)
Definition capturar_dados_api (url : string) : M json :=
  print (MsgBuscando url) ;;
  try_except
    (response ← requests_get url;
     print MsgCapturados ;;
     response_json response)
    [ (RequestException, print MsgErroConexao ;; mret JNull);
      (JSONDecodeError, print MsgErroJson ;; mret JNull) ].

(** ** TableWriter: [gravar_arquivo_parquet] *)

Definition gravar_arquivo_parquet (df : DataFrame) (nome_arquivo pasta : string)
  : M unit :=
  if df_empty df then print (MsgVazio nome_arquivo)
  else
    let caminho_completo := os_path_join pasta nome_arquivo in
    try_except
      (to_parquet df caminho_completo ;;
       print (MsgSalvo caminho_completo))
      [ (Exception, print (MsgErroSalvar caminho_completo)) ].

(** ** MetadataStage: [orquestrar_captura_metadados] *)

Definition tabelas_para_extrair : list (string * list string) :=
  [ ("variaveis.parquet", ["Variaveis"]);
    ("unidades_de_medida.parquet", ["UnidadesDeMedida"]);
    ("periodos.parquet", ["Periodos"; "Periodos"]);
    ("conjuntos_periodos.parquet", ["Periodos"; "Conjuntos"]);
    ("notas.parquet", ["Notas"]) ].

(** [None] is [JNull]: the program does not tell a failed fetch from a
    fetched [null]. *)
Definition orquestrar_captura_metadados : M json :=
  print MsgEtapa1 ;;
  dados_json_meta ← capturar_dados_api URL_IPCA_METADADOs;
  if negb (truthy dados_json_meta) then mret JNull
  else
    for_each tabelas_para_extrair (λ '(nome_arquivo, caminho),
      df_processado ← lift (extrair_lista_de_metadados dados_json_meta caminho);
      gravar_arquivo_parquet df_processado nome_arquivo PASTA_SAIDA ;;
      print MsgSeparador) ;;
    mret dados_json_meta.

(** ** SeriesStage: [orquestrar_captura_dados_numericos] *)

(** [variavel[nome]] for a row yielded by [iterrows()]. *)
Fixpoint series_get (cols : list json) (variavel : list (option json))
    (nome : string) : result (option json) :=
  match cols, variavel with
  | c :: cols', x :: variavel' =>
      match c with
      | JStr s => if String.eqb s nome then Ok x else series_get cols' variavel' nome
      | _ => series_get cols' variavel' nome
      end
  | _, _ => Raise KeyError
  end.

(** [dados_metadados.get('Id', '1737')] *)
Definition get_id_tabela (dados_metadados : json) : result json :=
  match dados_metadados with
  | JDict fields => Ok (default (JStr "1737") (field "Id" fields))
  | _ => Raise AttributeError
  end.

Definition url_dados (id_tabela var_id var_decimais : string) : string :=
  "https://apisidra.ibge.gov.br/values/t/" +:+ id_tabela +:+ "/n1/all/v/"
    +:+ var_id +:+ "/p/all/d/v" +:+ var_id +:+ "%20" +:+ var_decimais.

(** The body of the loop over [df_variaveis.iterrows()]. *)
Definition capturar_variavel (id_tabela : json) (cols : list json)
    (variavel : list (option json)) : M unit :=
  var_id ← lift (series_get cols variavel "Id");
  var_decimais ← lift (series_get cols variavel "DecimaisApresentacao");
  var_nome ← lift (series_get cols variavel "Nome");
  s_nome ← format_cell var_nome;
  s_id ← format_cell var_id;
  print (MsgBuscandoVariavel s_nome s_id) ;;
  s_tabela ← format_value id_tabela;
  s_decimais ← format_cell var_decimais;
  dados_numericos_json ← capturar_dados_api (url_dados s_tabela s_id s_decimais);
  (if truthy dados_numericos_json then
     df_dados_numericos ← lift (processar_dados_numericos dados_numericos_json);
     gravar_arquivo_parquet df_dados_numericos
       ("dados_numericos_" +:+ s_id +:+ ".parquet") PASTA_SAIDA
   else mret tt) ;;
  print MsgSeparador.

Definition orquestrar_captura_dados_numericos (dados_metadados : json) : M unit :=
  print MsgEtapa2 ;;
  let caminho_variaveis := os_path_join PASTA_SAIDA "variaveis.parquet" in
  lido ← try_except
    (df_variaveis ← read_parquet caminho_variaveis;
     print (MsgVariaveisLido caminho_variaveis) ;;
     mret (Some df_variaveis))
    [ (FileNotFoundError,
       print (MsgVariaveisAusente caminho_variaveis) ;; mret None) ];
  match lido with
  | None => mret tt
  | Some df_variaveis =>
      id_tabela ← lift (get_id_tabela dados_metadados);
      for_each (rows df_variaveis) (capturar_variavel id_tabela (columns df_variaveis))
  end.

(** ** Orchestrator: [main] *)

Definition main : M unit :=
  print MsgInicio ;;
  makedirs PASTA_SAIDA ;;
  metadados ← orquestrar_captura_metadados;
  (if truthy metadados then orquestrar_captura_dados_numericos metadados
   else print MsgEtapa2Cancelada) ;;
  print MsgFim.

(** ** Vocabulary of the statements *)

(** The value a key path designates in a document: each key but the last
    is looked up in a dict. *)
Fixpoint resolve (document : json) (key_path : list string) : option json :=
  match key_path with
  | [] => Some document
  | k :: rest =>
      match document with
      | JDict fields => field k fields ≫= λ v, resolve v rest
      | _ => None
      end
  end.

(** [k1] is seen before [k2] in [ks]: some occurrence of [k1] has no [k2]
    in front of it. *)
Definition seen_before (ks : list string) (k1 k2 : string) : Prop :=
  ∃ pre post, ks = pre ++ k1 :: post ∧ k2 ∉ pre.

(** The keys of the records in the order a reader meets them. *)
Definition all_keys {V} (records : list (list (string * V))) : list string :=
  mjoin (keys <$> records).

(** The column name as the specification words it: one trailing [s]
    removed, first character capitalized, nothing else changed. *)
Fixpoint strip_trailing_s (s : string) : string :=
  match s with
  | EmptyString => EmptyString
  | String c EmptyString => if Ascii.eqb c "s"%char then EmptyString else s
  | String c rest => String c (strip_trailing_s rest)
  end.

Definition spec_nome_coluna (chave : string) : string :=
  match strip_trailing_s chave with
  | EmptyString => EmptyString
  | String c rest => String (chr_upper c) rest
  end.

(** The state after more lines were printed. *)
Definition printed (ms : list message) (st : State) : State :=
  mkState (disk st) (dirs st) (stdout st ++ ms) (requests st) (writes st).

(** The state after one more request was sent. *)
Definition requested (url : string) (st : State) : State :=
  mkState (disk st) (dirs st) (stdout st) (requests st ++ [url]) (writes st).

(** The state after [os.makedirs(pasta, exist_ok=True)] succeeded. *)
Definition with_dir (pasta : string) (st : State) : State :=
  mkState (disk st) ({[pasta]} ∪ dirs st) (stdout st) (requests st) (writes st).

(** The URL the loop of SeriesStage requests for a row: the row must have
    the three fields the loop reads. *)
Definition url_variavel (w : World) (id_tabela : json) (cols : list json)
    (variavel : list (option json)) : option string :=
  match series_get cols variavel "Id",
        series_get cols variavel "DecimaisApresentacao",
        series_get cols variavel "Nome" with
  | Ok var_id, Ok var_decimais, Ok _ =>
      Some (url_dados (str_value w id_tabela) (str_cell w var_id)
              (str_cell w var_decimais))
  | _, _, _ => None
  end.

(** An answer after which SeriesStage writes nothing for the variable:
    the fetch failed, the body was not JSON, or the envelope has fewer
    than two elements. *)
Definition sem_dados (r : http_outcome) : bool :=
  match r with
  | HttpFail | HttpBody None => true
  | HttpBody (Some (JList items)) => (length items <? 2)%nat
  | HttpBody (Some _) => false
  | HttpJsonRaises _ => false
  end.

(** ** Sample worlds, for the examples *)

Definition estado_inicial : State := mkState ∅ ∅ [] [] [].

Definition str_exemplo (v : json) : string :=
  match v with
  | JInt 63 => "63" | JInt 2 => "2" | JInt 1737 => "1737"
  | _ => "?"
  end.

(** A variables table with two rows, and a disk that holds it. *)
Definition variaveis_exemplo : DataFrame :=
  mkDataFrame [JStr "Id"; JStr "Nome"; JStr "DecimaisApresentacao"]
    [ [Some (JInt 63); Some (JStr "IPCA"); Some (JInt 2)];
      [Some (JInt 2); Some (JStr "Outra"); Some (JInt 2)] ].

Definition estado_com_variaveis : State :=
  mkState {[ "saida_dados/variaveis.parquet" := variaveis_exemplo ]} ∅ [] [] [].

(** No network: every request fails. *)
Definition mundo_sem_rede : World :=
  mkWorld (λ _ _, HttpFail) (λ _ _ _, true) (λ _ _, true) str_exemplo.

(** The server answers every request with [{}]; nothing can be written. *)
Definition mundo_documento_vazio : World :=
  mkWorld (λ _ _, HttpBody (Some (JDict []))) (λ _ _ _, false) (λ _ _, true)
    str_exemplo.

(** The server answers the metadata request with a document that has one
    variable and no table identifier, and every other request with an
    empty envelope. *)
Definition documento_exemplo : json :=
  JDict [("Variaveis",
          JList [JDict [("Id", JInt 63); ("Nome", JStr "IPCA");
                        ("DecimaisApresentacao", JInt 2)]])].

Definition mundo_exemplo : World :=
  mkWorld
    (λ _ url, if String.eqb url URL_IPCA_METADADOs
              then HttpBody (Some documento_exemplo)
              else HttpBody (Some (JList [])))
    (λ _ _ _, true) (λ _ _, true) str_exemplo.

(** ** More vocabulary: frames, files and plans of writes *)

(** Every row has one cell per column. *)
Definition df_wf (df : DataFrame) : Prop :=
  Forall (λ row, length row = length (columns df)) (rows df).

(** The path of the series file of a variable whose identifier prints as
    [s_id]. *)
Definition caminho_dados (s_id : string) : string :=
  "saida_dados/dados_numericos_" +:+ s_id +:+ ".parquet".

Definition caminho_variaveis : string := "saida_dados/variaveis.parquet".

(** What MetadataStage hands to [to_parquet] for one entry of
    [tabelas_para_extrair]: the path and the frame, when the extraction
    returns a frame that is not empty. *)
Definition tabela_extraida (documento : json) (t : string * list string)
  : option (string * DataFrame) :=
  match extrair_lista_de_metadados documento t.2 with
  | Ok df => if df_empty df then None else Some (os_path_join PASTA_SAIDA t.1, df)
  | _ => None
  end.

Definition plano_metadados (documento : json) (tabelas : list (string * list string))
  : list (string * DataFrame) :=
  omap (tabela_extraida documento) tabelas.

(** The disk after a sequence of successful writes. *)
Definition apply_writes (ws : list (string * DataFrame)) (d : gmap string DataFrame)
  : gmap string DataFrame :=
  foldl (λ d x, <[x.1 := x.2]> d) d ws.

(** A world in which every write succeeds. *)
Definition sempre_grava (w : World) : Prop :=
  ∀ st caminho df, to_parquet_ok w st caminho df = true.

(** A world whose answers do not depend on what happened before: the
    same request gets the same answer, the same write the same fate. *)
Definition mundo_estavel (w : World) : Prop :=
  (∀ st st' url, http_get w st url = http_get w st' url)
  ∧ (∀ st st' caminho df,
       to_parquet_ok w st caminho df = to_parquet_ok w st' caminho df)
  ∧ (∀ st st' pasta, makedirs_ok w st pasta = makedirs_ok w st' pasta).

(** From [st] to [st'] only series files were handed to [to_parquet],
    and every other file is as it was. *)
Definition so_dados (st st' : State) : Prop :=
  (∀ p, (∀ s_id, p ≠ caminho_dados s_id) → disk st' !! p = disk st !! p)
  ∧ ∃ ws, writes st' = writes st ++ ws
          ∧ Forall (λ p, ∃ s_id, p = caminho_dados s_id) ws.

(** The server answers with a body in which an integer literal is longer
    than the digit limit: [response.json()] raises a plain [ValueError]. *)
Definition mundo_inteiro_longo : World :=
  mkWorld (λ _ _, HttpJsonRaises ValueError) (λ _ _ _, true) (λ _ _, true)
    str_exemplo.

(** The endpoint answers every request with an error object. *)
Definition mundo_erro_api : World :=
  mkWorld
    (λ _ _, HttpBody (Some (JDict [("erro", JStr "tabela"); ("codigo", JInt 2)])))
    (λ _ _ _, true) (λ _ _, true) str_exemplo.

(** The body of the loop of MetadataStage. *)
Definition gravar_tabela (dados_json_meta : json) (t : string * list string)
  : M unit :=
  let '(nome_arquivo, caminho) := t in
  df_processado ← lift (extrair_lista_de_metadados dados_json_meta caminho);
  gravar_arquivo_parquet df_processado nome_arquivo PASTA_SAIDA ;;
  print MsgSeparador.

(** Every extraction of the list returns a frame. *)
Definition extracoes_ok (documento : json) (tabelas : list (string * list string))
  : Prop :=
  Forall (λ t, ∃ df, extrair_lista_de_metadados documento t.2 = Ok df) tabelas.

(** The server answers with a document whose [Periodos] is a list. *)
Definition documento_periodos_lista : json :=
  JDict [("Variaveis",
          JList [JDict [("Id", JInt 63); ("Nome", JStr "IPCA");
                        ("DecimaisApresentacao", JInt 2)]]);
         ("Periodos", JList [JStr "202001"; JStr "202002"])].

Definition mundo_periodos_lista : World :=
  mkWorld (λ _ _, HttpBody (Some documento_periodos_lista))
    (λ _ _ _, true) (λ _ _, true) str_exemplo.

(** The frame the last write of [ws] to [p] leaves there, if [ws] writes
    to [p] at all. *)
Fixpoint last_write (p : string) (ws : list (string * DataFrame))
  : option DataFrame :=
  match ws with
  | [] => None
  | x :: rest =>
      match last_write p rest with
      | Some df => Some df
      | None => if decide (x.1 = p) then Some x.2 else None
      end
  end.

(** In the world [w], the computation [m] ends the same way and makes
    the same successful writes from whatever state it starts. *)
Definition planned {A} (w : World) (m : M A) : Prop :=
  ∃ r ws, ∀ st, (m w st).1 = r ∧ disk (m w st).2 = apply_writes ws (disk st).

(** [main] in two parts: up to the return of MetadataStage, and from the
    test of what it returned. *)
Definition main_inicio : M json :=
  print MsgInicio ;; makedirs PASTA_SAIDA ;; orquestrar_captura_metadados.

Definition main_fim (metadados : json) : M unit :=
  (if truthy metadados then orquestrar_captura_dados_numericos metadados
   else print MsgEtapa2Cancelada) ;;
  print MsgFim.

(** The endpoint answers every request with a one-row envelope. *)
Definition envelope_exemplo : json :=
  JList [JDict [("V", JStr "Valor"); ("D3C", JStr "Mes")];
         JDict [("V", JStr "0.21"); ("D3C", JStr "202001")]].

Definition mundo_envelope : World :=
  mkWorld (λ _ _, HttpBody (Some envelope_exemplo))
    (λ _ _ _, true) (λ _ _, true) str_exemplo.

(** * Properties *)

Example extrair_periodos :
  extrair_lista_de_metadados
    (JDict [("Periodos", JDict [("Periodos", JList [JStr "202001"; JStr "202002"])])])
    ["Periodos"; "Periodos"]
  = Ok (mkDataFrame [JStr "Periodo"] [[Some (JStr "202001")]; [Some (JStr "202002")]]).
Proof. reflexivity. Qed.

Example processar_exemplo :
  processar_dados_numericos
    (JList [JDict [("a", JStr "ColA"); ("b", JStr "ColB")];
            JDict [("a", JStr "1"); ("b", JStr "2")];
            JDict [("a", JStr "3"); ("b", JStr "4")]])
  = Ok (mkDataFrame [JStr "ColA"; JStr "ColB"]
          [[Some (JStr "1"); Some (JStr "2")]; [Some (JStr "3"); Some (JStr "4")]]).
Proof. reflexivity. Qed.

(** ** The column union of a list of records *)

Lemma add_unique_NoDup seen k : NoDup seen → NoDup (add_unique seen k).
Proof.
  intros Hnd. unfold add_unique. case_decide as Hin; [done|].
  apply NoDup_app. repeat split; [done| |apply NoDup_singleton].
  intros x Hx ->%list_elem_of_singleton. done.
Qed.

Lemma add_unique_elem_of seen k x : x ∈ add_unique seen k ↔ x ∈ seen ∨ x = k.
Proof.
  unfold add_unique. case_decide as Hin.
  - split; [by left|]. intros [?| ->]; done.
  - rewrite elem_of_app, list_elem_of_singleton. done.
Qed.

Lemma seen_before_snoc ks k k1 k2 :
  seen_before ks k1 k2 → seen_before (ks ++ [k]) k1 k2.
Proof.
  intros (pre & post & -> & Hpre). exists pre, (post ++ [k]).
  split; [by rewrite <-app_assoc|done].
Qed.

(** The fold that builds the columns, over a flat list of keys: no key
    twice, exactly the keys met, ordered by first occurrence. *)
Lemma foldl_add_unique_spec (ks : list string) :
  let out := foldl add_unique [] ks in
  NoDup out ∧ (∀ k, k ∈ out ↔ k ∈ ks) ∧
  (∀ i j k1 k2, out !! i = Some k1 → out !! j = Some k2 → i < j →
     seen_before ks k1 k2).
Proof.
  induction ks as [|k ks IH] using rev_ind; simpl.
  - split; [constructor|]. split; [done|]. intros i j k1 k2 Hi. done.
  - rewrite foldl_snoc. destruct IH as (Hnd & Hin & Hord).
    split; [by apply add_unique_NoDup|]. split.
    + intros x. rewrite add_unique_elem_of, elem_of_app, list_elem_of_singleton, Hin.
      done.
    + intros i j k1 k2 Hi Hj Hlt. unfold add_unique in Hi, Hj.
      case_decide as Hk; [by eapply seen_before_snoc, Hord|].
      apply lookup_snoc_Some in Hj as [[Hjlen Hj]|[Hjlen ->]].
      * apply lookup_snoc_Some in Hi as [[_ Hi]|[Hieq _]]; [|lia].
        by eapply seen_before_snoc, Hord.
      * apply lookup_snoc_Some in Hi as [[_ Hi]|[Hieq _]]; [|lia].
        assert (k1 ∈ ks) as (pre & post & ->)%list_elem_of_split.
        { apply Hin. by eapply list_elem_of_lookup_2. }
        exists pre, (post ++ [k2]). split; [by rewrite <-app_assoc|].
        intros Hpre. apply Hk, Hin. apply elem_of_app. by left.
Qed.

Lemma unique_keys_flat {V} (records : list (list (string * V))) seen :
  foldl (λ seen r, foldl add_unique seen (keys r)) seen records
  = foldl add_unique seen (all_keys records).
Proof.
  revert seen. induction records as [|r records IH]; intros seen; [done|].
  unfold all_keys. simpl. rewrite foldl_app. apply IH.
Qed.

Lemma elem_of_all_keys {V} (records : list (list (string * V))) k :
  k ∈ all_keys records ↔ ∃ r, r ∈ records ∧ k ∈ keys r.
Proof.
  unfold all_keys. rewrite list_elem_of_join. split.
  - intros (l & Hk & (r & -> & Hr)%list_elem_of_fmap). eauto.
  - intros (r & Hr & Hk). exists (keys r). split; [done|].
    by apply list_elem_of_fmap_2.
Qed.

Lemma unique_keys_spec {V} (records : list (list (string * V))) :
  NoDup (unique_keys records) ∧
  (∀ k, k ∈ unique_keys records ↔ ∃ r, r ∈ records ∧ k ∈ keys r) ∧
  (∀ i j k1 k2,
     unique_keys records !! i = Some k1 → unique_keys records !! j = Some k2 →
     i < j → seen_before (all_keys records) k1 k2).
Proof.
  unfold unique_keys. rewrite unique_keys_flat.
  destruct (foldl_add_unique_spec (all_keys records)) as (Hnd & Hin & Hord).
  split; [done|]. split; [|done].
  intros k. by rewrite Hin, elem_of_all_keys.
Qed.

Lemma as_records_dicts records : as_records (JDict <$> records) = Some records.
Proof. induction records as [|r records IH]; csimpl; [done|]. by rewrite IH. Qed.

(** The frame pandas builds from a non-empty list of dicts. *)
Lemma pd_DataFrame_records r records :
  pd_DataFrame (JDict <$> (r :: records)) None
  = Ok (mkDataFrame (JStr <$> unique_keys (r :: records))
          (record_row (unique_keys (r :: records)) <$> (r :: records))).
Proof.
  pose proof (as_records_dicts (r :: records)) as Hrec.
  rewrite fmap_cons in Hrec |- *. unfold pd_DataFrame. by rewrite Hrec.
Qed.

(** The frame pandas builds from a non-empty list of strings under one
    column name. *)
Lemma pd_DataFrame_strings itens nome :
  itens ≠ [] → forallb is_str itens = true →
  pd_DataFrame itens (Some [JStr nome])
  = Ok (mkDataFrame [JStr nome] ((λ v, [Some v]) <$> itens)).
Proof.
  intros Hne Hstr. destruct itens as [|x itens]; [done|].
  assert (forallb is_scalar (x :: itens) = true) as Hsc.
  { apply forallb_forall. intros y Hy.
    eapply forallb_forall in Hstr; [|exact Hy]. by destruct y. }
  unfold pd_DataFrame. rewrite Hsc.
  simpl in Hstr. apply andb_prop in Hstr as [Hx _]. by destruct x.
Qed.

(** ** The walk along the key path *)

(** When the path designates a value other than [None], the loop ends
    on it. *)
Lemma percorrer_resolve document key_path v :
  resolve document key_path = Some v → v ≠ JNull →
  percorrer document key_path = Ok (Some v).
Proof.
  revert document. induction key_path as [|k rest IH]; intros document Hres Hv.
  - simpl in *. congruence.
  - simpl in Hres. destruct document as [| | | | | |fields]; try done.
    simpl. destruct (field k fields) as [v1|] eqn:Hk; [|done]. simpl in *.
    assert (v1 ≠ JNull) as Hv1.
    { intros ->. destruct rest; simpl in Hres; [congruence|done]. }
    specialize (IH _ Hres Hv). by destruct v1.
Qed.

(** A key that is absent from the dict reached so far ends the walk with
    the empty frame. *)
Lemma percorrer_absent document pre k rest fields :
  resolve document pre = Some (JDict fields) → field k fields = None →
  percorrer document (pre ++ k :: rest) = Ok None.
Proof.
  revert document. induction pre as [|k0 pre IH]; intros document Hres Hk.
  - simpl in *. injection Hres as ->. simpl. by rewrite Hk.
  - simpl in Hres. destruct document as [| | | | | |fs]; try done.
    simpl. destruct (field k0 fs) as [v1|] eqn:Hk0; [|done]. simpl in *.
    specialize (IH _ Hres Hk). by destruct v1.
Qed.

(** A value that is neither a dict nor [None], reached with keys still
    to follow, makes [.get] raise. *)
Lemma percorrer_not_mapping document pre k rest v :
  resolve document pre = Some v → is_dict v = false → v ≠ JNull →
  percorrer document (pre ++ k :: rest) = Raise AttributeError.
Proof.
  revert document. induction pre as [|k0 pre IH]; intros document Hres Hd Hv.
  - simpl in *. injection Hres as ->. by destruct v.
  - simpl in Hres. destruct document as [| | | | | |fs]; try done.
    simpl. destruct (field k0 fs) as [v1|] eqn:Hk0; [|done]. simpl in *.
    specialize (IH _ Hres Hd Hv). destruct v1; try done.
    destruct pre; simpl in Hres; [congruence|done].
Qed.

Lemma field_None {V} k (fields : list (string * V)) :
  field k fields = None ↔ k ∉ keys fields.
Proof.
  unfold keys. induction fields as [|[k' v] fields IH]; csimpl.
  - split; [intros _|done]. apply not_elem_of_nil.
  - rewrite not_elem_of_cons. destruct (String.eqb_spec k k') as [->|Hne].
    + split; [done|]. by intros [? _].
    + rewrite IH. tauto.
Qed.

(** ** PathExtractor *)

(** The part of C1 the code keeps: a key absent from the mapping reached
    so far gives the empty frame. *)
Lemma extrair_absent_key document pre k rest fields :
  resolve document pre = Some (JDict fields) → field k fields = None →
  extrair_lista_de_metadados document (pre ++ k :: rest) = Ok DataFrame_vazio.
Proof.
  intros Hres Hk. unfold extrair_lista_de_metadados.
  by rewrite (percorrer_absent _ _ _ _ _ Hres Hk).
Qed.

(** C1 (code bug).  When the walk reaches, with keys still to follow, a
    value that is neither a mapping nor [None] (a list, a string, a
    number, a boolean), [extrair_lista_de_metadados] raises
    [AttributeError] instead of returning the empty frame. *)
Theorem extrair_non_mapping_raises document pre k rest v :
  resolve document pre = Some v → is_dict v = false → v ≠ JNull →
  extrair_lista_de_metadados document (pre ++ k :: rest) = Raise AttributeError.
Proof.
  intros Hres Hd Hv. unfold extrair_lista_de_metadados.
  by rewrite (percorrer_not_mapping _ _ _ _ _ Hres Hd Hv).
Qed.

Lemma extrair_non_mapping_raises_witness :
  extrair_lista_de_metadados
    (JDict [("Periodos", JList [JStr "202001"])]) ["Periodos"; "Periodos"]
  = Raise AttributeError.
Proof.
  apply (extrair_non_mapping_raises
           (JDict [("Periodos", JList [JStr "202001"])])
           ["Periodos"] "Periodos" [] (JList [JStr "202001"]));
    [reflexivity | reflexivity | discriminate].
Defined.

(** *** The single-column shape *)

Lemma str_replace_char_app old s1 s2 :
  str_replace_char old (s1 +:+ s2)
  = str_replace_char old s1 +:+ str_replace_char old s2.
Proof.
  induction s1 as [|c s1 IH]; simpl; [done|].
  destruct (Ascii.eqb c old); simpl; by rewrite IH.
Qed.

Lemma strip_trailing_s_snoc body : strip_trailing_s (body +:+ "s") = body.
Proof.
  induction body as [|c body IH]; [done|].
  change (String c body +:+ "s") with (String c (body +:+ "s")).
  simpl. rewrite IH. destruct body; done.
Qed.

Lemma str_is_ascii_replace old s :
  str_is_ascii s = true → str_is_ascii (str_replace_char old s) = true.
Proof.
  induction s as [|c s IH]; simpl; [done|].
  intros [Hc Hs]%andb_prop. destruct (Ascii.eqb c old); simpl; [by apply IH|].
  by rewrite Hc, IH.
Qed.

(** Where the rule of the code and the wording of the specification
    agree: a key made of a first character other than [s], then
    characters that are neither [s] nor capital letters, then one final
    [s]. *)
Lemma nome_coluna_plural_simples c body :
  c ≠ "s"%char → str_replace_char "s" body = body → str_lower body = body →
  ascii_capitalize (str_replace_char "s" (String c (body +:+ "s")))
  = spec_nome_coluna (String c (body +:+ "s")).
Proof.
  intros Hc Hs Hl. unfold spec_nome_coluna.
  change (String c (body +:+ "s")) with (String c body +:+ "s").
  rewrite strip_trailing_s_snoc, str_replace_char_app.
  simpl. apply Ascii.eqb_neq in Hc. rewrite Hc, Hs.
  assert (String c body +:+ EmptyString = String c body) as ->.
  { generalize (String c body). clear. intros s.
    induction s as [|a s IH]; [done|].
    change (String a s +:+ EmptyString) with (String a (s +:+ EmptyString)).
    by rewrite IH. }
  simpl. by rewrite Hl.
Qed.

(** C2 as stated fails: in ["Paises"] the code removes both [s], the
    specification only the last one. *)
Lemma nome_coluna_interior_s :
  extrair_lista_de_metadados
    (JDict [("Paises", JList [JStr "Brasil"; JStr "Chile"])]) ["Paises"]
  = Ok (mkDataFrame [JStr "Paie"] [[Some (JStr "Brasil")]; [Some (JStr "Chile")]])
  ∧ spec_nome_coluna "Paises" = "Paise"
  ∧ extrair_lista_de_metadados
      (JDict [("Paises", JList [JStr "Brasil"; JStr "Chile"])]) ["Paises"]
    ≠ Ok (mkDataFrame [JStr (spec_nome_coluna "Paises")]
            [[Some (JStr "Brasil")]; [Some (JStr "Chile")]]).
Proof. repeat split. vm_compute. discriminate. Qed.

(** C2 (amended).  For a non-empty key path whose last key is made of
    ASCII characters and whose terminal value is a non-empty list of
    strings, the result is a one-column frame; the column name is the
    last key with every [s] removed, then its first character upper-cased
    and all the others lower-cased; the rows are the elements in source
    order.  For a key that is one character other than [s], then
    characters that are neither [s] nor capitals, then a final [s], this
    is the key without its trailing [s], first character capitalized. *)
Theorem extrair_strings document key_path chave itens :
  last key_path = Some chave →
  str_is_ascii chave = true →
  resolve document key_path = Some (JList itens) →
  itens ≠ [] → forallb is_str itens = true →
  extrair_lista_de_metadados document key_path
  = Ok (mkDataFrame [JStr (ascii_capitalize (str_replace_char "s" chave))]
          ((λ v, [Some v]) <$> itens))
  ∧ (∀ c body,
       chave = String c (body +:+ "s") → c ≠ "s"%char →
       str_replace_char "s" body = body → str_lower body = body →
       ascii_capitalize (str_replace_char "s" chave) = spec_nome_coluna chave).
Proof.
  intros Hlast Hascii Hres Hne Hstr. split.
  - unfold extrair_lista_de_metadados.
    rewrite (percorrer_resolve _ _ _ Hres) by done.
    destruct itens as [|x itens]; [done|]. rewrite Hstr, Hlast.
    unfold str_capitalize. rewrite (str_is_ascii_replace _ _ Hascii).
    by apply pd_DataFrame_strings.
  - intros c body -> Hc Hs Hl. by apply nome_coluna_plural_simples.
Qed.

Lemma extrair_strings_witness :
  extrair_lista_de_metadados
    (JDict [("Periodos", JDict [("Periodos", JList [JStr "202001"; JStr "202002"])])])
    ["Periodos"; "Periodos"]
  = Ok (mkDataFrame [JStr "Periodo"] [[Some (JStr "202001")]; [Some (JStr "202002")]])
  ∧ "Periodo" = spec_nome_coluna "Periodos".
Proof.
  destruct (extrair_strings
    (JDict [("Periodos", JDict [("Periodos", JList [JStr "202001"; JStr "202002"])])])
    ["Periodos"; "Periodos"] "Periodos" [JStr "202001"; JStr "202002"])
    as [Hdf Hnome];
    [reflexivity | reflexivity | reflexivity | discriminate | reflexivity |].
  split; [exact Hdf|].
  apply (Hnome "P"%char "eriodo"); [reflexivity | discriminate | reflexivity | reflexivity].
Defined.

(** *** The multi-column shape *)

(** C4.  For a key path whose terminal value is a non-empty list of
    mappings, the result has one column per distinct key of the mappings,
    in first-seen order, one row per mapping in input order, and in each
    row the value of the mapping under the column, missing where the
    mapping has no such key. *)
Theorem extrair_records document key_path records :
  resolve document key_path = Some (JList (JDict <$> records)) →
  records ≠ [] →
  ∃ ks,
    extrair_lista_de_metadados document key_path
    = Ok (mkDataFrame (JStr <$> ks) ((λ r, (λ k, field k r) <$> ks) <$> records))
    ∧ NoDup ks
    ∧ (∀ k, k ∈ ks ↔ ∃ r, r ∈ records ∧ k ∈ keys r)
    ∧ (∀ i j k1 k2, ks !! i = Some k1 → ks !! j = Some k2 → i < j →
         seen_before (all_keys records) k1 k2)
    ∧ (∀ r k, r ∈ records → k ∈ ks → field k r = None ↔ k ∉ keys r).
Proof.
  intros Hres Hne. destruct records as [|r records]; [done|].
  exists (unique_keys (r :: records)).
  destruct (unique_keys_spec (r :: records)) as (Hnd & Hin & Hord).
  split; [|split; [done|split; [done|split; [done|]]]];
    [|intros r0 k _ _; apply field_None].
  unfold extrair_lista_de_metadados.
  rewrite (percorrer_resolve _ _ _ Hres) by done.
  rewrite fmap_cons. rewrite <-fmap_cons.
  change (forallb is_str (JDict <$> r :: records)) with false.
  apply pd_DataFrame_records.
Qed.

Lemma extrair_records_witness :
  ∃ ks,
    extrair_lista_de_metadados
      (JDict [("A", JList [JDict [("Id", JInt 1); ("Nome", JStr "foo")];
                           JDict [("Id", JInt 2); ("Nota", JStr "bar")]])])
      ["A"]
    = Ok (mkDataFrame (JStr <$> ks)
            [ (λ k, field k [("Id", JInt 1); ("Nome", JStr "foo")]) <$> ks;
              (λ k, field k [("Id", JInt 2); ("Nota", JStr "bar")]) <$> ks ])
    ∧ NoDup ks.
Proof.
  destruct (extrair_records
    (JDict [("A", JList [JDict [("Id", JInt 1); ("Nome", JStr "foo")];
                         JDict [("Id", JInt 2); ("Nota", JStr "bar")]])])
    ["A"]
    [ [("Id", JInt 1); ("Nome", JStr "foo")]; [("Id", JInt 2); ("Nota", JStr "bar")] ])
    as (ks & Hdf & Hnd & _); [reflexivity | discriminate |].
  exists ks. split; [exact Hdf | exact Hnd].
Defined.

(** ** SeriesNormalizer *)

Lemma field_Some_elem_of {V} k (fields : list (string * V)) v :
  field k fields = Some v → (k, v) ∈ fields.
Proof.
  induction fields as [|[k' v'] fields IH]; simpl; [done|].
  destruct (String.eqb_spec k k') as [->|Hne].
  - intros [= ->]. apply list_elem_of_here.
  - intros Hf. apply list_elem_of_further, IH, Hf.
Qed.

Lemma rename_label_scalar mapper ks :
  forallb (λ kv, is_scalar kv.2) mapper = true →
  forallb is_scalar (rename_label mapper <$> (JStr <$> ks)) = true.
Proof.
  intros Hm. apply forallb_forall. intros lbl Hin.
  apply list_elem_of_In, list_elem_of_fmap in Hin as (? & -> & Hin).
  apply list_elem_of_fmap in Hin as (k & -> & _). simpl.
  destruct (field k mapper) as [v|] eqn:Hk; [|done]. simpl.
  apply field_Some_elem_of, list_elem_of_In in Hk.
  eapply forallb_forall in Hm; [|exact Hk]. done.
Qed.

(** C3 as stated fails: a raw identifier of element 0 that no row carries
    gives no column, so the columns are not the display names of
    element 0. *)
Lemma processar_colunas_sem_linha :
  processar_dados_numericos
    (JList [JDict [("a", JStr "ColA"); ("b", JStr "ColB")]; JDict [("a", JStr "1")]])
  = Ok (mkDataFrame [JStr "ColA"] [[Some (JStr "1")]])
  ∧ ¬ (∀ nome, nome ∈ [JStr "ColA"]
               ↔ nome ∈ [("a", JStr "ColA"); ("b", JStr "ColB")].*2).
Proof.
  split; [reflexivity|]. intros H.
  assert (JStr "ColB" ∈ [JStr "ColA"]) as Hin.
  { apply H. simpl. apply list_elem_of_further, list_elem_of_here. }
  apply list_elem_of_singleton in Hin. discriminate.
Qed.

(** C3 (amended).  For an envelope of at least two elements, all of them
    mappings and the display names scalars, the result has one column per
    distinct raw identifier met in elements 1..N, in first-seen order,
    labelled with the display name element 0 gives to the identifier, or
    with the identifier itself when element 0 has none; the rows are
    elements 1..N in order, each cell read from its row under the raw
    identifier, missing where the row has no such identifier. *)
Theorem processar_envelope nomes_colunas records :
  records ≠ [] →
  forallb (λ kv, is_scalar kv.2) nomes_colunas = true →
  ∃ ks,
    processar_dados_numericos (JList (JDict nomes_colunas :: (JDict <$> records)))
    = Ok (mkDataFrame ((λ k, default (JStr k) (field k nomes_colunas)) <$> ks)
            ((λ r, (λ k, field k r) <$> ks) <$> records))
    ∧ NoDup ks
    ∧ (∀ k, k ∈ ks ↔ ∃ r, r ∈ records ∧ k ∈ keys r)
    ∧ (∀ i j k1 k2, ks !! i = Some k1 → ks !! j = Some k2 → i < j →
         seen_before (all_keys records) k1 k2)
    ∧ (∀ r k, r ∈ records → k ∈ ks → field k r = None ↔ k ∉ keys r).
Proof.
  intros Hne Hsc. destruct records as [|r records]; [done|].
  exists (unique_keys (r :: records)).
  destruct (unique_keys_spec (r :: records)) as (Hnd & Hin & Hord).
  split; [|split; [done|split; [done|split; [done|]]]];
    [|intros r0 k _ _; apply field_None].
  unfold processar_dados_numericos.
  change (negb (truthy _)) with false. cbv iota.
  rewrite (pd_DataFrame_records r records).
  unfold df_rename. cbn [columns rows].
  rewrite rename_label_scalar by done.
  by rewrite <-list_fmap_compose.
Qed.

Lemma processar_envelope_witness :
  ∃ ks,
    processar_dados_numericos
      (JList [JDict [("a", JStr "ColA"); ("b", JStr "ColB")];
              JDict [("a", JStr "1"); ("b", JStr "2")];
              JDict [("c", JStr "3"); ("a", JStr "4")]])
    = Ok (mkDataFrame
            ((λ k, default (JStr k) (field k [("a", JStr "ColA"); ("b", JStr "ColB")])) <$> ks)
            [ (λ k, field k [("a", JStr "1"); ("b", JStr "2")]) <$> ks;
              (λ k, field k [("c", JStr "3"); ("a", JStr "4")]) <$> ks ])
    ∧ NoDup ks.
Proof.
  destruct (processar_envelope
    [("a", JStr "ColA"); ("b", JStr "ColB")]
    [ [("a", JStr "1"); ("b", JStr "2")]; [("c", JStr "3"); ("a", JStr "4")] ])
    as (ks & Hdf & Hnd & _); [discriminate | reflexivity |].
  exists ks. split; [exact Hdf | exact Hnd].
Defined.

(** C7.  An envelope with fewer than two elements gives the empty
    frame. *)
Theorem processar_envelope_curto items :
  length items < 2 → processar_dados_numericos (JList items) = Ok DataFrame_vazio.
Proof.
  intros Hlen. destruct items as [|x [|y items]]; [done|done|].
  simpl in Hlen. lia.
Qed.

Lemma processar_envelope_curto_witness :
  processar_dados_numericos (JList []) = Ok DataFrame_vazio
  ∧ processar_dados_numericos (JList [JDict [("a", JStr "ColA")]]) = Ok DataFrame_vazio.
Proof.
  split.
  - apply (processar_envelope_curto []). simpl. lia.
  - apply (processar_envelope_curto [JDict [("a", JStr "ColA")]]). simpl. lia.
Defined.

(** ** Running the effectful functions *)

Lemma bind_run {A B} (m : M A) (f : A → M B) w st :
  (m ≫= f) w st
  = match m w st with
    | (Ok a, st') => f a w st'
    | (Raise e, st') => (Raise e, st')
    | (OutOfModel, st') => (OutOfModel, st')
    end.
Proof. reflexivity. Qed.

Lemma ret_run {A} (a : A) w st : (mret a : M A) w st = (Ok a, st).
Proof. reflexivity. Qed.

Lemma print_run m w st : print m w st = (Ok tt, printed [m] st).
Proof. reflexivity. Qed.

Lemma printed_printed ms1 ms2 st :
  printed ms2 (printed ms1 st) = printed (ms1 ++ ms2) st.
Proof. unfold printed. simpl. by rewrite <-app_assoc. Qed.

(** Flatten the states built by a run. *)
Ltac norm_state :=
  unfold printed, requested, with_dir; simpl; rewrite <-?app_assoc; simpl.

(** [capturar_dados_api] sends one request and returns the decoded body,
    or [None] after a failed request or a body that is not JSON; an
    exception of [response.json()] that no clause catches leaves it. *)
Lemma capturar_dados_api_run url w st :
  capturar_dados_api url w st
  = let st1 := requested url (printed [MsgBuscando url] st) in
    match http_get w (printed [MsgBuscando url] st) url with
    | HttpFail => (Ok JNull, printed [MsgErroConexao] st1)
    | HttpBody None => (Ok JNull, printed [MsgCapturados; MsgErroConexao] st1)
    | HttpBody (Some v) => (Ok v, printed [MsgCapturados] st1)
    | HttpJsonRaises e =>
        if exn_isinstance e RequestException
        then (Ok JNull, printed [MsgCapturados; MsgErroConexao] st1)
        else (Raise e, printed [MsgCapturados] st1)
    end.
Proof.
  unfold capturar_dados_api, try_except, requests_get.
  rewrite bind_run, print_run. rewrite !bind_run.
  destruct (http_get w (printed [MsgBuscando url] st) url) as [|[v|]|e]; simpl;
    try reflexivity.
  - rewrite bind_run, print_run. by norm_state.
  - destruct e; simpl; try reflexivity; rewrite bind_run, print_run; by norm_state.
Qed.

(** Whatever the answer, the call returns or raises after one request and
    some lines printed. *)
Lemma capturar_dados_api_any url w st :
  ∃ r ms,
    capturar_dados_api url w st
    = (r, printed ms (requested url (printed [MsgBuscando url] st)))
    ∧ r ≠ OutOfModel.
Proof.
  rewrite capturar_dados_api_run. cbv zeta.
  destruct (http_get w _ url) as [|[v|]|e]; [by eexists _, _..|].
  destruct (exn_isinstance e RequestException); by eexists _, _.
Qed.

(** ** TableWriter *)

(** The early return of the writer. *)
Lemma gravar_arquivo_parquet_empty w st df nome_arquivo pasta :
  df_empty df = true →
  gravar_arquivo_parquet df nome_arquivo pasta w st
  = (Ok tt, printed [MsgVazio nome_arquivo] st).
Proof. intros Hempty. unfold gravar_arquivo_parquet. by rewrite Hempty. Qed.

(** C8.  On an empty frame [gravar_arquivo_parquet] hands nothing to
    [to_parquet], leaves the files as they are, prints that the file was
    not generated and returns normally, whatever the file name, the
    directory and the state of the disk. *)
Theorem gravar_vazio w st df nome_arquivo pasta :
  df_empty df = true →
  gravar_arquivo_parquet df nome_arquivo pasta w st
  = (Ok tt, printed [MsgVazio nome_arquivo] st)
  ∧ disk (printed [MsgVazio nome_arquivo] st) = disk st
  ∧ writes (printed [MsgVazio nome_arquivo] st) = writes st.
Proof.
  intros Hempty. by rewrite gravar_arquivo_parquet_empty.
Qed.

Lemma gravar_vazio_witness :
  gravar_arquivo_parquet DataFrame_vazio "notas.parquet" "/nao/existe"
    mundo_documento_vazio estado_inicial
  = (Ok tt, mkState ∅ ∅ [MsgVazio "notas.parquet"] [] []).
Proof.
  apply (gravar_vazio mundo_documento_vazio estado_inicial DataFrame_vazio
           "notas.parquet" "/nao/existe").
  reflexivity.
Defined.

(** What [gravar_arquivo_parquet] does in general: it always returns
    normally and sends no request. *)
Lemma gravar_arquivo_parquet_ok df nome_arquivo pasta w st :
  ∃ st', gravar_arquivo_parquet df nome_arquivo pasta w st = (Ok tt, st')
         ∧ requests st' = requests st.
Proof.
  unfold gravar_arquivo_parquet. destruct (df_empty df); [by eexists|].
  unfold try_except, to_parquet. rewrite bind_run.
  destruct (to_parquet_ok w st _ df); simpl; by eexists.
Qed.

(** ** MetadataStage with a falsy document *)

(** C9.  When the metadata request succeeds and the decoded value is
    falsy, [orquestrar_captura_metadados] returns [None] having only
    printed its banner and the two lines of the fetch: no table was
    extracted, nothing was handed to [to_parquet]; and [main] then ends
    without running SeriesStage. *)
Theorem metadados_falsy w st v :
  http_get w (printed [MsgEtapa1; MsgBuscando URL_IPCA_METADADOs] st)
    URL_IPCA_METADADOs = HttpBody (Some v) →
  truthy v = false →
  orquestrar_captura_metadados w st
  = (Ok JNull,
     mkState (disk st) (dirs st)
       (stdout st ++ [MsgEtapa1; MsgBuscando URL_IPCA_METADADOs; MsgCapturados])
       (requests st ++ [URL_IPCA_METADADOs]) (writes st))
  ∧ ∀ st0,
      makedirs_ok w (printed [MsgInicio] st0) PASTA_SAIDA = true →
      st = with_dir PASTA_SAIDA (printed [MsgInicio] st0) →
      main w st0
      = (Ok tt,
         mkState (disk st0) ({[PASTA_SAIDA]} ∪ dirs st0)
           (stdout st0 ++ [MsgInicio; MsgEtapa1; MsgBuscando URL_IPCA_METADADOs;
                           MsgCapturados; MsgEtapa2Cancelada; MsgFim])
           (requests st0 ++ [URL_IPCA_METADADOs]) (writes st0)).
Proof.
  intros Hget Hv.
  assert (orquestrar_captura_metadados w st
    = (Ok JNull,
       mkState (disk st) (dirs st)
         (stdout st ++ [MsgEtapa1; MsgBuscando URL_IPCA_METADADOs; MsgCapturados])
         (requests st ++ [URL_IPCA_METADADOs]) (writes st))) as Hstage.
  { unfold orquestrar_captura_metadados.
    rewrite bind_run, print_run, bind_run, capturar_dados_api_run.
    rewrite printed_printed. simpl app. rewrite Hget. cbv beta iota zeta.
    rewrite Hv. simpl. by norm_state. }
  split; [exact Hstage|].
  intros st0 Hmk ->. unfold main.
  rewrite bind_run, print_run. unfold makedirs at 1. rewrite bind_run, Hmk.
  fold (with_dir PASTA_SAIDA (printed [MsgInicio] st0)).
  rewrite bind_run, Hstage. cbv beta iota zeta. simpl truthy. cbv iota.
  rewrite bind_run, print_run, print_run. by norm_state.
Qed.

Lemma metadados_falsy_witness :
  orquestrar_captura_metadados mundo_documento_vazio estado_inicial
  = (Ok JNull,
     mkState ∅ ∅ [MsgEtapa1; MsgBuscando URL_IPCA_METADADOs; MsgCapturados]
       [URL_IPCA_METADADOs] [])
  ∧ main mundo_documento_vazio estado_inicial
    = (Ok tt,
       mkState ∅ ({[PASTA_SAIDA]} ∪ ∅)
         [MsgInicio; MsgEtapa1; MsgBuscando URL_IPCA_METADADOs; MsgCapturados;
          MsgEtapa2Cancelada; MsgFim]
         [URL_IPCA_METADADOs] []).
Proof.
  split.
  - apply (metadados_falsy mundo_documento_vazio estado_inicial (JDict []));
      reflexivity.
  - apply (proj2 (metadados_falsy mundo_documento_vazio
                    (with_dir PASTA_SAIDA (printed [MsgInicio] estado_inicial))
                    (JDict []) eq_refl eq_refl) estado_inicial);
      reflexivity.
Defined.

(** ** SeriesStage *)

Lemma lift_run {A} (r : result A) w st : lift r w st = (r, st).
Proof. reflexivity. Qed.

(** One iteration on a variable for which no data arrives: it returns
    normally, having sent its request and changed no file. *)
Lemma capturar_variavel_sem_dados w st id_tabela cols variavel var_id var_decimais var_nome :
  series_get cols variavel "Id" = Ok var_id →
  series_get cols variavel "DecimaisApresentacao" = Ok var_decimais →
  series_get cols variavel "Nome" = Ok var_nome →
  let url := url_dados (str_value w id_tabela) (str_cell w var_id)
               (str_cell w var_decimais) in
  sem_dados
    (http_get w
       (printed [MsgBuscandoVariavel (str_cell w var_nome) (str_cell w var_id);
                 MsgBuscando url] st) url) = true →
  ∃ st', capturar_variavel id_tabela cols variavel w st = (Ok tt, st')
         ∧ requests st' = requests st ++ [url]
         ∧ disk st' = disk st ∧ writes st' = writes st.
Proof.
  intros Hid Hdec Hnome url Hsem. unfold capturar_variavel.
  rewrite bind_run, lift_run, Hid. cbv beta iota.
  rewrite bind_run, lift_run, Hdec. cbv beta iota.
  rewrite bind_run, lift_run, Hnome. cbv beta iota.
  rewrite bind_run. unfold format_cell at 1. cbv beta iota.
  rewrite bind_run. unfold format_cell at 1. cbv beta iota.
  rewrite bind_run, print_run. cbv beta iota.
  rewrite bind_run. unfold format_value at 1. cbv beta iota.
  rewrite bind_run. unfold format_cell at 1. cbv beta iota.
  rewrite bind_run, capturar_dados_api_run, printed_printed. simpl app.
  fold url. cbv zeta.
  destruct (http_get w _ url) as [|[v|]|e]; cbv beta iota; [| | |done].
  - rewrite bind_run. simpl. eexists. by norm_state.
  - destruct v as [| | | | |items|]; try done.
    destruct items as [|x [|y items]]; [| |done].
    + rewrite bind_run. simpl. eexists. by norm_state.
    + rewrite bind_run. change (truthy (JList [x])) with true. cbv iota.
      rewrite bind_run, lift_run.
      change (processar_dados_numericos (JList [x])) with (Ok DataFrame_vazio).
      cbv beta iota.
      rewrite gravar_arquivo_parquet_empty by done.
      cbv beta iota. rewrite print_run. eexists. by norm_state.
  - rewrite bind_run. simpl. eexists. by norm_state.
Qed.

(** One iteration in general: a row that lacks one of the three fields
    raises [KeyError] before any request; otherwise exactly one request
    is sent, to the URL of the row. *)
Lemma capturar_variavel_requests w st id_tabela cols variavel :
  ∃ r st', capturar_variavel id_tabela cols variavel w st = (r, st')
    ∧ match url_variavel w id_tabela cols variavel with
      | Some url => requests st' = requests st ++ [url]
      | None => requests st' = requests st ∧ r ≠ Ok tt
      end.
Proof.
  unfold capturar_variavel, url_variavel.
  rewrite bind_run, lift_run.
  destruct (series_get cols variavel "Id") as [var_id| |]; cbv beta iota;
    [|by eexists _, _..].
  rewrite bind_run, lift_run.
  destruct (series_get cols variavel "DecimaisApresentacao") as [var_decimais| |];
    cbv beta iota; [|by eexists _, _..].
  rewrite bind_run, lift_run.
  destruct (series_get cols variavel "Nome") as [var_nome| |];
    cbv beta iota; [|by eexists _, _..].
  rewrite bind_run. unfold format_cell at 1. cbv beta iota.
  rewrite bind_run. unfold format_cell at 1. cbv beta iota.
  rewrite bind_run, print_run. cbv beta iota.
  rewrite bind_run. unfold format_value at 1. cbv beta iota.
  rewrite bind_run. unfold format_cell at 1. cbv beta iota.
  rewrite bind_run. set (url := url_dados _ _ _).
  destruct (capturar_dados_api_any url w
              (printed [MsgBuscandoVariavel (str_cell w var_nome) (str_cell w var_id)]
                 st)) as (r0 & ms & -> & Hr0).
  set (st1 := requested url _).
  destruct r0 as [v|e|]; [|by eexists _, _|done].
  cbv beta iota. rewrite bind_run.
  destruct (truthy v).
  - rewrite bind_run, lift_run.
    destruct (processar_dados_numericos v) as [df| |]; cbv beta iota;
      [|by eexists _, _..].
    destruct (gravar_arquivo_parquet_ok df
      ("dados_numericos_" +:+ str_cell w var_id +:+ ".parquet") PASTA_SAIDA
      w (printed ms st1)) as (st2 & -> & Hreq).
    cbv beta iota. rewrite print_run. eexists _, _. split; [done|].
    simpl. by rewrite Hreq.
  - simpl. by eexists _, _.
Qed.

(** The requests of the loop are the URLs of the leading rows, one per
    row and in row order; of all the rows when the loop ends normally. *)
Lemma for_each_variaveis_requests w id_tabela cols variaveis st :
  ∃ r st' us k,
    for_each variaveis (capturar_variavel id_tabela cols) w st = (r, st')
    ∧ requests st' = requests st ++ us
    ∧ Some <$> us = take k (url_variavel w id_tabela cols <$> variaveis)
    ∧ (r = Ok tt → Some <$> us = url_variavel w id_tabela cols <$> variaveis).
Proof.
  revert st. induction variaveis as [|variavel variaveis IH]; intros st.
  - exists (Ok tt), st, [], 0. simpl. by rewrite app_nil_r.
  - simpl for_each. rewrite bind_run.
    destruct (capturar_variavel_requests w st id_tabela cols variavel)
      as (r1 & st1 & -> & Hreq1).
    destruct (url_variavel w id_tabela cols variavel) as [url|] eqn:Hurl.
    + destruct r1 as [[]| |].
      * destruct (IH st1) as (r & st' & us & k & -> & Hreq & Htake & Hall).
        exists r, st', (url :: us), (S k). split; [done|].
        rewrite Hreq, Hreq1, <-app_assoc. split; [done|].
        rewrite !fmap_cons, Hurl. simpl. rewrite Htake. split; [done|].
        intros Hr. by rewrite <-Htake, (Hall Hr).
      * exists (Raise e), st1, [url], 1. rewrite !fmap_cons, Hurl. done.
      * exists OutOfModel, st1, [url], 1. rewrite !fmap_cons, Hurl. done.
    + destruct Hreq1 as [Hreq1 Hr1].
      destruct r1 as [[]| |]; [done| |].
      * exists (Raise e), st1, [], 0. rewrite app_nil_r. done.
      * exists OutOfModel, st1, [], 0. rewrite app_nil_r. done.
Qed.

(** SeriesStage on a mapping: without the variables file it stops after
    two lines; with it, it runs the loop over the rows of that table with
    the [Id] of the mapping, or with ['1737'] when the mapping has no
    [Id]. *)
Lemma orquestrar_captura_dados_numericos_run w st fields :
  orquestrar_captura_dados_numericos (JDict fields) w st
  = let caminho := os_path_join PASTA_SAIDA "variaveis.parquet" in
    match disk st !! caminho with
    | None => (Ok tt, printed [MsgEtapa2; MsgVariaveisAusente caminho] st)
    | Some df =>
        for_each (rows df)
          (capturar_variavel (default (JStr "1737") (field "Id" fields)) (columns df))
          w (printed [MsgEtapa2; MsgVariaveisLido caminho] st)
    end.
Proof.
  unfold orquestrar_captura_dados_numericos.
  rewrite bind_run, print_run. cbv zeta.
  set (caminho := os_path_join PASTA_SAIDA "variaveis.parquet").
  rewrite bind_run. unfold try_except, read_parquet. rewrite bind_run.
  change (disk (printed [MsgEtapa2] st)) with (disk st).
  destruct (disk st !! caminho) as [df|]; cbv beta iota.
  - rewrite bind_run, print_run, printed_printed. cbv beta iota.
    rewrite ret_run. cbv beta iota.
    rewrite bind_run, lift_run. done.
  - simpl find_handler. cbv beta iota.
    rewrite bind_run, print_run, printed_printed. done.
Qed.

(** C5.  With the variables table on disk, SeriesStage is the loop over
    the rows of that table, in row order: it sends one request per row,
    built from the row, and the requests it has sent when it stops are
    those of the leading rows, of all the rows when it ends normally.  At
    any point of the loop, a variable whose fetch fails, whose body is
    not JSON or whose envelope has fewer than two elements ends its
    iteration normally, with no file changed, and the loop goes on with
    the rows that follow exactly as it would have started on them. *)
Theorem series_stage_loop w fields df st :
  disk st !! os_path_join PASTA_SAIDA "variaveis.parquet" = Some df →
  let id_tabela := default (JStr "1737") (field "Id" fields) in
  let corpo := capturar_variavel id_tabela (columns df) in
  orquestrar_captura_dados_numericos (JDict fields) w st
  = for_each (rows df) corpo w
      (printed [MsgEtapa2;
                MsgVariaveisLido (os_path_join PASTA_SAIDA "variaveis.parquet")] st)
  ∧ (∃ r st' us k,
       orquestrar_captura_dados_numericos (JDict fields) w st = (r, st')
       ∧ requests st' = requests st ++ us
       ∧ Some <$> us = take k (url_variavel w id_tabela (columns df) <$> rows df)
       ∧ (r = Ok tt →
          Some <$> us = url_variavel w id_tabela (columns df) <$> rows df))
  ∧ (∀ variavel resto st1 var_id var_decimais var_nome,
       series_get (columns df) variavel "Id" = Ok var_id →
       series_get (columns df) variavel "DecimaisApresentacao" = Ok var_decimais →
       series_get (columns df) variavel "Nome" = Ok var_nome →
       let url := url_dados (str_value w id_tabela) (str_cell w var_id)
                    (str_cell w var_decimais) in
       sem_dados
         (http_get w
            (printed [MsgBuscandoVariavel (str_cell w var_nome) (str_cell w var_id);
                      MsgBuscando url] st1) url) = true →
       ∃ st1',
         for_each (variavel :: resto) corpo w st1 = for_each resto corpo w st1'
         ∧ requests st1' = requests st1 ++ [url]
         ∧ disk st1' = disk st1 ∧ writes st1' = writes st1).
Proof.
  intros Hdisk id_tabela corpo.
  assert (orquestrar_captura_dados_numericos (JDict fields) w st
          = for_each (rows df) corpo w
              (printed [MsgEtapa2;
                        MsgVariaveisLido
                          (os_path_join PASTA_SAIDA "variaveis.parquet")] st))
    as Hrun.
  { rewrite orquestrar_captura_dados_numericos_run. cbv zeta. by rewrite Hdisk. }
  split; [exact Hrun|]. split.
  - rewrite Hrun.
    destruct (for_each_variaveis_requests w id_tabela (columns df) (rows df)
                (printed [MsgEtapa2;
                          MsgVariaveisLido
                            (os_path_join PASTA_SAIDA "variaveis.parquet")] st))
      as (r & st' & us & k & Hloop & Hreq & Htake & Hall).
    by exists r, st', us, k.
  - intros variavel resto st1 var_id var_decimais var_nome Hid Hdec Hnome url Hsem.
    destruct (capturar_variavel_sem_dados w st1 id_tabela (columns df) variavel
                var_id var_decimais var_nome Hid Hdec Hnome Hsem)
      as (st1' & Hiter & Hreq & Hd & Hw).
    exists st1'. split; [|done].
    unfold corpo. simpl for_each. by rewrite bind_run, Hiter.
Qed.

Lemma series_stage_loop_witness :
  orquestrar_captura_dados_numericos (JDict []) mundo_sem_rede estado_com_variaveis
  = for_each (rows variaveis_exemplo)
      (capturar_variavel (JStr "1737") (columns variaveis_exemplo))
      mundo_sem_rede
      (printed [MsgEtapa2; MsgVariaveisLido "saida_dados/variaveis.parquet"]
         estado_com_variaveis)
  ∧ ∃ st',
      for_each (rows variaveis_exemplo)
        (capturar_variavel (JStr "1737") (columns variaveis_exemplo))
        mundo_sem_rede estado_com_variaveis
      = for_each [ [Some (JInt 2); Some (JStr "Outra"); Some (JInt 2)] ]
          (capturar_variavel (JStr "1737") (columns variaveis_exemplo))
          mundo_sem_rede st'
      ∧ requests st'
        = ["https://apisidra.ibge.gov.br/values/t/1737/n1/all/v/63/p/all/d/v63%202"].
Proof.
  destruct (series_stage_loop mundo_sem_rede [] variaveis_exemplo
              estado_com_variaveis eq_refl) as (Hrun & _ & Hcont).
  split; [exact Hrun|].
  destruct (Hcont [Some (JInt 63); Some (JStr "IPCA"); Some (JInt 2)]
              [ [Some (JInt 2); Some (JStr "Outra"); Some (JInt 2)] ]
              estado_com_variaveis (Some (JInt 63)) (Some (JInt 2))
              (Some (JStr "IPCA")) eq_refl eq_refl eq_refl eq_refl)
    as (st' & Hloop & Hreq & _).
  exists st'. split; [exact Hloop | exact Hreq].
Defined.

(** ** Orchestrator *)

(** A document returned by MetadataStage is [None] or a non-empty
    mapping: on any other truthy value the first extraction raises. *)
Lemma orquestrar_captura_metadados_dict w st doc st' :
  orquestrar_captura_metadados w st = (Ok doc, st') →
  doc = JNull ∨ ∃ fields, doc = JDict fields ∧ fields ≠ [].
Proof.
  unfold orquestrar_captura_metadados.
  rewrite bind_run, print_run, bind_run.
  destruct (capturar_dados_api_any URL_IPCA_METADADOs w (printed [MsgEtapa1] st))
    as (r0 & ms & -> & Hr0).
  set (st1 := requested _ _).
  destruct r0 as [v|e|]; [|done..].
  cbv beta iota. destruct (truthy v) eqn:Hv; cbn [negb]; cbv iota.
  - rewrite bind_run.
    destruct v as [| | | | | |fields]; try done;
      try (simpl for_each; rewrite bind_run, bind_run, lift_run; by simpl).
    destruct (for_each _ _ w _) as [[[]| |] st2]; [|discriminate..].
    intros [= <- _]. right. exists fields. split; [done|]. by destruct fields.
  - intros [= <- _]. by left.
Qed.

(** C6.  [main] runs SeriesStage exactly when MetadataStage returns a
    document.  When MetadataStage returns [None], [main] only prints two
    more lines: no banner of SeriesStage, no further request.  When it
    returns a document, the document is a mapping, [main] continues with
    SeriesStage on it, and SeriesStage runs its loop with the [Id] of
    the document, or with ['1737'] when the document has no [Id]: every
    request it sends is built from that identifier.  When MetadataStage
    raises, so does [main], and SeriesStage is not run. *)
Theorem main_series_stage w st0 r st2 :
  makedirs_ok w (printed [MsgInicio] st0) PASTA_SAIDA = true →
  orquestrar_captura_metadados w (with_dir PASTA_SAIDA (printed [MsgInicio] st0))
  = (r, st2) →
  match r with
  | Ok JNull => main w st0 = (Ok tt, printed [MsgEtapa2Cancelada; MsgFim] st2)
  | Ok doc =>
      ∃ fields,
        doc = JDict fields
        ∧ main w st0
          = (orquestrar_captura_dados_numericos doc ;; print MsgFim) w st2
        ∧ (let id_tabela := default (JStr "1737") (field "Id" fields) in
           let caminho := os_path_join PASTA_SAIDA "variaveis.parquet" in
           orquestrar_captura_dados_numericos doc w st2
           = match disk st2 !! caminho with
             | None => (Ok tt, printed [MsgEtapa2; MsgVariaveisAusente caminho] st2)
             | Some df =>
                 for_each (rows df) (capturar_variavel id_tabela (columns df))
                   w (printed [MsgEtapa2; MsgVariaveisLido caminho] st2)
             end
           ∧ ∃ r3 st3 us,
               orquestrar_captura_dados_numericos doc w st2 = (r3, st3)
               ∧ requests st3 = requests st2 ++ us
               ∧ ∀ u, u ∈ us →
                   ∃ var_id var_decimais,
                     u = url_dados (str_value w id_tabela) var_id var_decimais)
  | Raise e => main w st0 = (Raise e, st2)
  | OutOfModel => main w st0 = (OutOfModel, st2)
  end.
Proof.
  intros Hmk Hmeta.
  assert (main w st0
    = match r with
      | Ok metadados =>
          ((if truthy metadados then orquestrar_captura_dados_numericos metadados
            else print MsgEtapa2Cancelada) ;; print MsgFim) w st2
      | Raise e => (Raise e, st2)
      | OutOfModel => (OutOfModel, st2)
      end) as Hmain.
  { unfold main. rewrite bind_run, print_run. unfold makedirs at 1.
    rewrite bind_run, Hmk.
    fold (with_dir PASTA_SAIDA (printed [MsgInicio] st0)).
    rewrite bind_run, Hmeta. by destruct r. }
  destruct r as [doc| |]; [|done..].
  destruct (orquestrar_captura_metadados_dict _ _ _ _ Hmeta)
    as [->|(fields & -> & Hne)].
  - rewrite Hmain. simpl truthy. cbv iota.
    by rewrite bind_run, !print_run, printed_printed.
  - exists fields. split; [done|].
    assert (truthy (JDict fields) = true) as Htruthy by by destruct fields.
    rewrite Hmain, Htruthy. split; [done|].
    cbv zeta. split; [apply orquestrar_captura_dados_numericos_run|].
    rewrite orquestrar_captura_dados_numericos_run. cbv zeta.
    destruct (disk st2 !! _) as [df|].
    + destruct (for_each_variaveis_requests w
                  (default (JStr "1737") (field "Id" fields)) (columns df) (rows df)
                  (printed [MsgEtapa2; MsgVariaveisLido
                              (os_path_join PASTA_SAIDA "variaveis.parquet")] st2))
        as (r3 & st3 & us & k & Hrun & Hreq & Htake & _).
      exists r3, st3, us. split; [done|]. split; [done|].
      intros u Hu.
      assert (Some u ∈ take k (url_variavel w
                (default (JStr "1737") (field "Id" fields)) (columns df) <$> rows df))
        as Hin.
      { rewrite <-Htake. by apply list_elem_of_fmap_2. }
      apply list_elem_of_lookup_1 in Hin as (i & Hin).
      apply lookup_take_Some in Hin as [Hin _].
      apply list_lookup_fmap_Some in Hin as (variavel & Hurl & _).
      unfold url_variavel in Hurl.
      destruct (series_get (columns df) variavel "Id") as [var_id| |]; [|done..].
      destruct (series_get (columns df) variavel "DecimaisApresentacao")
        as [var_decimais| |]; [|done..].
      destruct (series_get (columns df) variavel "Nome"); [|done..].
      injection Hurl as ->. by eexists _, _.
    + eexists _, _, []. split; [done|]. rewrite app_nil_r. split; [done|].
      intros u Hu. by apply not_elem_of_nil in Hu.
Qed.

Lemma main_series_stage_witness :
  ∃ fields,
    documento_exemplo = JDict fields
    ∧ field "Id" fields = None
    ∧ main mundo_exemplo estado_inicial
      = (orquestrar_captura_dados_numericos documento_exemplo ;; print MsgFim)
          mundo_exemplo
          (orquestrar_captura_metadados mundo_exemplo
             (with_dir PASTA_SAIDA (printed [MsgInicio] estado_inicial))).2.
Proof.
  assert (orquestrar_captura_metadados mundo_exemplo
            (with_dir PASTA_SAIDA (printed [MsgInicio] estado_inicial))
          = (Ok documento_exemplo,
             (orquestrar_captura_metadados mundo_exemplo
                (with_dir PASTA_SAIDA (printed [MsgInicio] estado_inicial))).2))
    as Hmeta by (vm_compute; reflexivity).
  destruct (main_series_stage mundo_exemplo estado_inicial _ _ eq_refl Hmeta)
    as (fields & Hdoc & Hmain & _).
  exists fields. split; [exact Hdoc|]. split; [|exact Hmain].
  injection Hdoc as <-. reflexivity.
Defined.

Example main_exemplo_requests :
  requests (main mundo_exemplo estado_inicial).2
  = [ URL_IPCA_METADADOs;
      "https://apisidra.ibge.gov.br/values/t/1737/n1/all/v/63/p/all/d/v63%202" ].
Proof. vm_compute. reflexivity. Qed.

(** * Further properties of the code *)

(** ** [capturar_dados_api] *)

(** X1.  [capturar_dados_api] sends exactly one request, to the URL it
    is given, and touches no file.  It returns the decoded body, or
    [None] when the request fails or the body is not JSON.  The only
    exceptions that leave it are those [response.json()] raises that are
    not a [RequestException]. *)
Theorem capturar_dados_api_resultado url w st :
  ∃ r st',
    capturar_dados_api url w st = (r, st')
    ∧ requests st' = requests st ++ [url]
    ∧ disk st' = disk st ∧ writes st' = writes st ∧ dirs st' = dirs st
    ∧ r = match http_get w (printed [MsgBuscando url] st) url with
          | HttpBody (Some body) => Ok body
          | HttpFail | HttpBody None => Ok JNull
          | HttpJsonRaises e =>
              if exn_isinstance e RequestException then Ok JNull else Raise e
          end
    ∧ (∀ e, r = Raise e →
         http_get w (printed [MsgBuscando url] st) url = HttpJsonRaises e
         ∧ exn_isinstance e RequestException = false).
Proof.
  rewrite capturar_dados_api_run. cbv zeta.
  destruct (http_get w _ url) as [|[body|]|e]; [by eexists _, _..|].
  destruct (exn_isinstance e RequestException) eqn:He; eexists _, _;
    repeat split; try done; by simplify_eq.
Qed.

Example capturar_dados_api_inteiro_longo :
  capturar_dados_api URL_IPCA_METADADOs mundo_inteiro_longo estado_inicial
  = (Raise ValueError,
     mkState ∅ ∅ [MsgBuscando URL_IPCA_METADADOs; MsgCapturados]
       [URL_IPCA_METADADOs] [])
  ∧ (main mundo_inteiro_longo estado_inicial).1 = Raise ValueError.
Proof. split; reflexivity. Qed.

(** X2.  [capturar_dados_api] reports a body that is not JSON with the
    line of the connection errors: the failure of [response.json()] is a
    [RequestException], which the first [except] clause takes, and the
    line of the second clause is never printed. *)
Theorem capturar_dados_api_erro_json url w st :
  ∃ ms,
    stdout (capturar_dados_api url w st).2 = stdout st ++ ms
    ∧ (MsgErroJson ∉ ms)
    ∧ (http_get w (printed [MsgBuscando url] st) url = HttpBody None →
       ms = [MsgBuscando url; MsgCapturados; MsgErroConexao]).
Proof.
  rewrite capturar_dados_api_run. cbv zeta.
  destruct (http_get w _ url) as [|[body|]|e];
    [| | |destruct (exn_isinstance e RequestException)];
    eexists; (split; [by norm_state|]);
    (split; [|done]);
    intros Hin; repeat (apply elem_of_cons in Hin as [Hin|Hin]; [done|]);
    by apply not_elem_of_nil in Hin.
Qed.

(** ** [gravar_arquivo_parquet] *)

(** The writer in full. *)
Lemma gravar_arquivo_parquet_run df nome_arquivo pasta w st :
  gravar_arquivo_parquet df nome_arquivo pasta w st
  = (Ok tt,
     if df_empty df then printed [MsgVazio nome_arquivo] st
     else
       let caminho := os_path_join pasta nome_arquivo in
       if to_parquet_ok w st caminho df
       then mkState (<[caminho := df]> (disk st)) (dirs st)
              (stdout st ++ [MsgSalvo caminho]) (requests st)
              (writes st ++ [caminho])
       else mkState (disk st) (dirs st)
              (stdout st ++ [MsgErroSalvar caminho]) (requests st)
              (writes st ++ [caminho])).
Proof.
  unfold gravar_arquivo_parquet. destruct (df_empty df); [done|].
  cbv zeta. unfold try_except, to_parquet. rewrite bind_run.
  by destruct (to_parquet_ok w st _ df).
Qed.

(** X3.  On a frame that is not empty [gravar_arquivo_parquet] hands the
    frame to [to_parquet] once, at [os.path.join(pasta, nome_arquivo)],
    sends no request and never raises, whether the write succeeds or not:
    [except Exception] takes the failure.  It prints the line of the
    success or the line of the error accordingly, and after a write that
    succeeded the file holds the frame.  No other path is touched. *)
Theorem gravar_arquivo_parquet_total df nome_arquivo pasta w st :
  df_empty df = false →
  let caminho := os_path_join pasta nome_arquivo in
  ∃ st',
    gravar_arquivo_parquet df nome_arquivo pasta w st = (Ok tt, st')
    ∧ writes st' = writes st ++ [caminho]
    ∧ requests st' = requests st
    ∧ (∀ p, p ≠ caminho → disk st' !! p = disk st !! p)
    ∧ (if to_parquet_ok w st caminho df
       then disk st' !! caminho = Some df
            ∧ stdout st' = stdout st ++ [MsgSalvo caminho]
       else stdout st' = stdout st ++ [MsgErroSalvar caminho]).
Proof.
  intros Hne caminho. rewrite gravar_arquivo_parquet_run, Hne. cbv zeta.
  fold caminho. eexists. split; [done|].
  destruct (to_parquet_ok w st caminho df); simpl; repeat split; try done.
  - intros p Hp. by apply lookup_insert_ne.
  - apply lookup_insert_eq.
Qed.

Lemma gravar_arquivo_parquet_total_witness :
  ∃ st',
    gravar_arquivo_parquet variaveis_exemplo "variaveis.parquet" PASTA_SAIDA
      mundo_sem_rede estado_inicial = (Ok tt, st')
    ∧ writes st' = ["saida_dados/variaveis.parquet"]
    ∧ disk st' !! "saida_dados/variaveis.parquet" = Some variaveis_exemplo.
Proof.
  destruct (gravar_arquivo_parquet_total variaveis_exemplo "variaveis.parquet"
              PASTA_SAIDA mundo_sem_rede estado_inicial eq_refl)
    as (st' & Hrun & Hw & _ & _ & Hd & _).
  exists st'. split; [exact Hrun|]. split; [exact Hw | exact Hd].
Defined.

(** ** [extrair_lista_de_metadados]: the empty results *)

Lemma percorrer_none document pre k rest fields :
  resolve document pre = Some (JDict fields) →
  default JNull (field k fields) = JNull →
  percorrer document (pre ++ k :: rest) = Ok None.
Proof.
  revert document. induction pre as [|k0 pre IH]; intros document Hres Hk.
  - simpl in *. injection Hres as ->. simpl. by rewrite Hk.
  - simpl in Hres. destruct document as [| | | | | |fs]; try done.
    simpl. destruct (field k0 fs) as [v1|] eqn:Hk0; [|done]. simpl in *.
    specialize (IH _ Hres Hk). by destruct v1.
Qed.

Lemma percorrer_resolve_null document key_path :
  resolve document key_path = Some JNull →
  percorrer document key_path = Ok None
  ∨ percorrer document key_path = Ok (Some JNull).
Proof.
  revert document. induction key_path as [|k rest IH]; intros document Hres.
  - simpl in *. injection Hres as ->. by right.
  - simpl in Hres. destruct document as [| | | | | |fields]; try done.
    simpl. destruct (field k fields) as [v1|] eqn:Hk; [|done]. simpl in *.
    destruct (IH _ Hres) as [Hp|Hp]; destruct v1; auto.
Qed.

(** X4.  A key that the mapping reached so far does not have, or has
    with the value [None], ends the extraction with the empty frame,
    whatever keys follow it in the path. *)
Theorem extrair_key_none document pre k rest fields :
  resolve document pre = Some (JDict fields) →
  field k fields = None ∨ field k fields = Some JNull →
  extrair_lista_de_metadados document (pre ++ k :: rest) = Ok DataFrame_vazio.
Proof.
  intros Hres Hk. unfold extrair_lista_de_metadados.
  rewrite (percorrer_none _ _ _ _ _ Hres); [done|].
  by destruct Hk as [-> | ->].
Qed.

Lemma extrair_key_none_witness :
  extrair_lista_de_metadados
    (JDict [("Periodos", JDict [("Periodos", JNull)])])
    ["Periodos"; "Periodos"; "Conjuntos"]
  = Ok DataFrame_vazio
  ∧ extrair_lista_de_metadados
      (JDict [("Periodos", JDict [("Periodos", JNull)])]) ["Notas"]
    = Ok DataFrame_vazio.
Proof.
  split.
  - apply (extrair_key_none
             (JDict [("Periodos", JDict [("Periodos", JNull)])])
             ["Periodos"] "Periodos" ["Conjuntos"] [("Periodos", JNull)]);
      [reflexivity | right; reflexivity].
  - apply (extrair_key_none
             (JDict [("Periodos", JDict [("Periodos", JNull)])])
             [] "Notas" [] [("Periodos", JDict [("Periodos", JNull)])]);
      [reflexivity | left; reflexivity].
Defined.

(** X5.  When the path designates a value that is not a non-empty list
    (a mapping, a string, a number, a boolean, [None] or the empty list),
    the extraction returns the empty frame. *)
Theorem extrair_not_a_list document key_path v :
  resolve document key_path = Some v →
  (∀ x itens, v ≠ JList (x :: itens)) →
  extrair_lista_de_metadados document key_path = Ok DataFrame_vazio.
Proof.
  intros Hres Hv. unfold extrair_lista_de_metadados.
  assert (v = JNull ∨ v ≠ JNull) as [->|Hnull] by (destruct v; auto).
  - by destruct (percorrer_resolve_null _ _ Hres) as [-> | ->].
  - rewrite (percorrer_resolve _ _ _ Hres Hnull).
    destruct v as [| | | | |[|x itens]|]; try done. by destruct (Hv x itens).
Qed.

Lemma extrair_not_a_list_witness :
  extrair_lista_de_metadados (JDict [("Notas", JList [])]) ["Notas"]
  = Ok DataFrame_vazio
  ∧ extrair_lista_de_metadados (JDict [("Notas", JStr "nenhuma")]) ["Notas"]
    = Ok DataFrame_vazio.
Proof.
  split.
  - apply (extrair_not_a_list (JDict [("Notas", JList [])]) ["Notas"] (JList []));
      [reflexivity | discriminate].
  - apply (extrair_not_a_list (JDict [("Notas", JStr "nenhuma")]) ["Notas"]
             (JStr "nenhuma")); [reflexivity | discriminate].
Defined.

(** ** The frames the transformations return *)

Lemma pd_DataFrame_wf data cols df : pd_DataFrame data cols = Ok df → df_wf df.
Proof.
  unfold pd_DataFrame, df_wf. destruct data as [|x data].
  { intros [= <-]. constructor. }
  assert (∀ c : json,
            Forall (λ row : list (option json), length row = length [c])
              ((λ v, [Some v]) <$> x :: data)) as Hone.
  { intros c. apply Forall_fmap, Forall_forall. by intros. }
  destruct x;
    try (destruct (forallb is_scalar _); [|done];
         destruct cols as [[|c [|]]|]; intros [= <-]; apply Hone);
    [done|].
  destruct cols; [done|]. destruct (as_records _) as [records|]; [|done].
  intros [= <-]. simpl. apply Forall_fmap, Forall_forall. intros r _. simpl.
  unfold record_row. by rewrite length_map, length_fmap.
Qed.

Lemma df_rename_wf df mapper df' :
  df_wf df → df_rename df mapper = Ok df' → df_wf df'.
Proof.
  unfold df_rename, df_wf. intros Hwf. destruct mapper; try done.
  destruct (forallb is_scalar _); [|done]. intros [= <-]. simpl.
  by rewrite length_fmap.
Qed.

(** X6.  Every frame the two transformations return is rectangular: each
    row has exactly one cell, a value or a missing value, per column. *)
Theorem transformacoes_df_wf :
  (∀ dados_json caminho_chaves df,
     extrair_lista_de_metadados dados_json caminho_chaves = Ok df → df_wf df)
  ∧ (∀ json_data df, processar_dados_numericos json_data = Ok df → df_wf df).
Proof.
  assert (df_wf DataFrame_vazio) as Hvazio by constructor.
  split.
  - intros dados_json caminho_chaves df. unfold extrair_lista_de_metadados.
    destruct (percorrer _ _) as [[v|]| |]; try done; [|by intros [= <-]].
    destruct v as [| | | | |[|x itens]|]; try (by intros [= <-]).
    destruct (forallb is_str _).
    + destruct (last caminho_chaves); [|done].
      destruct (str_capitalize _); [|done..]. apply pd_DataFrame_wf.
    + apply pd_DataFrame_wf.
  - intros json_data df. unfold processar_dados_numericos.
    destruct (truthy json_data); cbn [negb]; cbv iota; [|by intros [= <-]].
    destruct json_data as [| | | |s|[|nomes [|x dados]]|fields]; try done;
      try (by intros [= <-]).
    + destruct (String.length s <? 2)%nat; [by intros [= <-]|done].
    + destruct (pd_DataFrame (x :: dados) None) as [df0| |] eqn:Hdf; try done.
      intros Hren. eapply df_rename_wf; [|exact Hren].
      by eapply pd_DataFrame_wf.
    + destruct (length fields <? 2)%nat; [by intros [= <-]|done].
Qed.

(** ** SeriesStage: the variables file and the answers of the endpoint *)

(** SeriesStage on any value: the table identifier is looked up only
    after the variables file was read. *)
Lemma orquestrar_captura_dados_numericos_any dados w st :
  orquestrar_captura_dados_numericos dados w st
  = match disk st !! caminho_variaveis with
    | None => (Ok tt, printed [MsgEtapa2; MsgVariaveisAusente caminho_variaveis] st)
    | Some df =>
        (id_tabela ← lift (get_id_tabela dados);
         for_each (rows df) (capturar_variavel id_tabela (columns df)))
          w (printed [MsgEtapa2; MsgVariaveisLido caminho_variaveis] st)
    end.
Proof.
  unfold orquestrar_captura_dados_numericos.
  rewrite bind_run, print_run. cbv zeta.
  change (os_path_join PASTA_SAIDA "variaveis.parquet") with caminho_variaveis.
  rewrite bind_run. unfold try_except, read_parquet. rewrite bind_run.
  change (disk (printed [MsgEtapa2] st)) with (disk st).
  destruct (disk st !! caminho_variaveis) as [df|]; cbv beta iota.
  - rewrite bind_run, print_run, printed_printed. cbv beta iota.
    by rewrite ret_run.
  - simpl find_handler. cbv beta iota.
    by rewrite bind_run, print_run, printed_printed.
Qed.

(** X7.  Without the variables file SeriesStage prints that the file was
    not found and returns normally: it sends no request, writes nothing
    and does not even look at the metadata it was given. *)
Theorem series_stage_sem_arquivo dados w st :
  disk st !! caminho_variaveis = None →
  orquestrar_captura_dados_numericos dados w st
  = (Ok tt, printed [MsgEtapa2; MsgVariaveisAusente caminho_variaveis] st).
Proof.
  intros Hdisk. by rewrite orquestrar_captura_dados_numericos_any, Hdisk.
Qed.

Lemma series_stage_sem_arquivo_witness :
  orquestrar_captura_dados_numericos (JList [JInt 1]) mundo_exemplo estado_inicial
  = (Ok tt, mkState ∅ ∅ [MsgEtapa2; MsgVariaveisAusente caminho_variaveis] [] []).
Proof.
  apply (series_stage_sem_arquivo (JList [JInt 1]) mundo_exemplo estado_inicial).
  reflexivity.
Defined.

Lemma series_get_absent cols variavel nome :
  JStr nome ∉ cols → series_get cols variavel nome = Raise KeyError.
Proof.
  revert variavel. induction cols as [|c cols IH]; intros variavel Hin; [done|].
  apply not_elem_of_cons in Hin as [Hc Hin].
  destruct variavel as [|x variavel]; [done|]. simpl.
  destruct c as [| | | |s| |]; try (by apply IH).
  destruct (String.eqb_spec s nome) as [->|Hne]; [done|]. by apply IH.
Qed.

Lemma series_get_cases cols variavel nome :
  (∃ x, series_get cols variavel nome = Ok x)
  ∨ series_get cols variavel nome = Raise KeyError.
Proof.
  revert variavel. induction cols as [|c cols IH]; intros variavel; [by right|].
  destruct variavel as [|x variavel]; [by right|]. simpl.
  destruct c as [| | | |s| |]; try apply IH.
  destruct (String.eqb s nome); [left; by eexists|apply IH].
Qed.

(** X8.  When the variables table has rows but lacks one of the columns
    [Id], [DecimaisApresentacao] and [Nome], SeriesStage raises
    [KeyError] on the first row, before any request is sent. *)
Theorem series_stage_coluna_ausente fields df variavel resto nome w st :
  disk st !! caminho_variaveis = Some df →
  rows df = variavel :: resto →
  nome ∈ ["Id"; "DecimaisApresentacao"; "Nome"] →
  JStr nome ∉ columns df →
  orquestrar_captura_dados_numericos (JDict fields) w st
  = (Raise KeyError, printed [MsgEtapa2; MsgVariaveisLido caminho_variaveis] st).
Proof.
  intros Hdisk Hrows Hnome Hcol.
  rewrite orquestrar_captura_dados_numericos_any, Hdisk, Hrows.
  rewrite bind_run, lift_run. simpl get_id_tabela. cbv beta iota.
  simpl for_each. rewrite bind_run. unfold capturar_variavel.
  pose proof (series_get_absent (columns df) variavel nome Hcol) as Habs.
  rewrite bind_run, lift_run.
  destruct (series_get_cases (columns df) variavel "Id") as [[var_id Hi]|Hi];
    rewrite Hi; [|done].
  cbv beta iota. rewrite bind_run, lift_run.
  destruct (series_get_cases (columns df) variavel "DecimaisApresentacao")
    as [[var_decimais Hd]|Hd]; rewrite Hd; [|done].
  cbv beta iota. rewrite bind_run, lift_run.
  destruct (series_get_cases (columns df) variavel "Nome") as [[var_nome Hn]|Hn];
    rewrite Hn; [|done].
  exfalso.
  repeat (apply elem_of_cons in Hnome as [->|Hnome]; [congruence|]).
  by apply not_elem_of_nil in Hnome.
Qed.

Lemma series_stage_coluna_ausente_witness :
  orquestrar_captura_dados_numericos (JDict []) mundo_exemplo
    (mkState {[ caminho_variaveis :=
                  mkDataFrame [JStr "Id"; JStr "Nome"]
                    [[Some (JInt 63); Some (JStr "IPCA")]] ]} ∅ [] [] [])
  = (Raise KeyError,
     mkState {[ caminho_variaveis :=
                  mkDataFrame [JStr "Id"; JStr "Nome"]
                    [[Some (JInt 63); Some (JStr "IPCA")]] ]} ∅
       [MsgEtapa2; MsgVariaveisLido caminho_variaveis] [] []).
Proof.
  apply (series_stage_coluna_ausente []
           (mkDataFrame [JStr "Id"; JStr "Nome"] [[Some (JInt 63); Some (JStr "IPCA")]])
           [Some (JInt 63); Some (JStr "IPCA")] [] "DecimaisApresentacao").
  - reflexivity.
  - reflexivity.
  - apply list_elem_of_further, list_elem_of_here.
  - intros Hin. repeat (apply elem_of_cons in Hin as [Hin|Hin]; [discriminate|]).
    by apply not_elem_of_nil in Hin.
Defined.

Lemma os_path_join_dados s_id :
  os_path_join PASTA_SAIDA ("dados_numericos_" +:+ s_id +:+ ".parquet")
  = caminho_dados s_id.
Proof. reflexivity. Qed.

Lemma caminho_variaveis_dados s_id : caminho_variaveis ≠ caminho_dados s_id.
Proof. unfold caminho_variaveis, caminho_dados. cbv [String.append]. discriminate. Qed.

(** One iteration of the loop on a row that has the three fields. *)
Lemma capturar_variavel_run w st id_tabela cols variavel var_id var_decimais var_nome :
  series_get cols variavel "Id" = Ok var_id →
  series_get cols variavel "DecimaisApresentacao" = Ok var_decimais →
  series_get cols variavel "Nome" = Ok var_nome →
  capturar_variavel id_tabela cols variavel w st
  = match capturar_dados_api
            (url_dados (str_value w id_tabela) (str_cell w var_id)
               (str_cell w var_decimais))
            w (printed [MsgBuscandoVariavel (str_cell w var_nome) (str_cell w var_id)] st)
    with
    | (Ok v, st1) =>
        if truthy v then
          match processar_dados_numericos v with
          | Ok df =>
              (gravar_arquivo_parquet df
                 ("dados_numericos_" +:+ str_cell w var_id +:+ ".parquet")
                 PASTA_SAIDA ;; print MsgSeparador) w st1
          | Raise e => (Raise e, st1)
          | OutOfModel => (OutOfModel, st1)
          end
        else print MsgSeparador w st1
    | (Raise e, st1) => (Raise e, st1)
    | (OutOfModel, st1) => (OutOfModel, st1)
    end.
Proof.
  intros Hid Hdec Hnome. unfold capturar_variavel.
  rewrite bind_run, lift_run, Hid. cbv beta iota.
  rewrite bind_run, lift_run, Hdec. cbv beta iota.
  rewrite bind_run, lift_run, Hnome. cbv beta iota.
  rewrite bind_run. unfold format_cell at 1. cbv beta iota.
  rewrite bind_run. unfold format_cell at 1. cbv beta iota.
  rewrite bind_run, print_run. cbv beta iota.
  rewrite bind_run. unfold format_value at 1. cbv beta iota.
  rewrite bind_run. unfold format_cell at 1. cbv beta iota.
  rewrite bind_run.
  destruct (capturar_dados_api _ w _) as [[v| |] st1]; [|done..].
  rewrite bind_run. destruct (truthy v); [|done].
  rewrite bind_run, lift_run.
  by destruct (processar_dados_numericos v).
Qed.

Lemma processar_raise_truthy v e :
  processar_dados_numericos v = Raise e → truthy v = true.
Proof. unfold processar_dados_numericos. by destruct (truthy v). Qed.

(** X9.  An exception of [processar_dados_numericos] is not caught by
    SeriesStage: when the endpoint answers a variable with a value on
    which the normalizer raises (an object of two or more members, a
    number, [true]), the loop stops at that variable with the exception,
    having written nothing for it, and the rows that follow are never
    requested. *)
Theorem series_stage_normalizador_raises
    w st id_tabela cols variavel resto var_id var_decimais var_nome v e :
  series_get cols variavel "Id" = Ok var_id →
  series_get cols variavel "DecimaisApresentacao" = Ok var_decimais →
  series_get cols variavel "Nome" = Ok var_nome →
  let url := url_dados (str_value w id_tabela) (str_cell w var_id)
               (str_cell w var_decimais) in
  http_get w
    (printed [MsgBuscandoVariavel (str_cell w var_nome) (str_cell w var_id);
              MsgBuscando url] st) url = HttpBody (Some v) →
  processar_dados_numericos v = Raise e →
  ∃ st',
    for_each (variavel :: resto) (capturar_variavel id_tabela cols) w st
    = (Raise e, st')
    ∧ requests st' = requests st ++ [url]
    ∧ disk st' = disk st ∧ writes st' = writes st.
Proof.
  intros Hid Hdec Hnome url Hget Hraise.
  simpl for_each. rewrite bind_run.
  rewrite (capturar_variavel_run _ _ _ _ _ _ _ _ Hid Hdec Hnome).
  fold url. rewrite capturar_dados_api_run, printed_printed. simpl app.
  rewrite Hget. cbv zeta beta iota.
  rewrite (processar_raise_truthy _ _ Hraise), Hraise. by eexists.
Qed.

Lemma series_stage_normalizador_raises_witness :
  ∃ e st',
    for_each (rows variaveis_exemplo)
      (capturar_variavel (JStr "1737") (columns variaveis_exemplo))
      mundo_erro_api estado_inicial
    = (Raise e, st')
    ∧ requests st'
      = ["https://apisidra.ibge.gov.br/values/t/1737/n1/all/v/63/p/all/d/v63%202"].
Proof.
  destruct (series_stage_normalizador_raises mundo_erro_api estado_inicial
              (JStr "1737") (columns variaveis_exemplo)
              [Some (JInt 63); Some (JStr "IPCA"); Some (JInt 2)]
              [ [Some (JInt 2); Some (JStr "Outra"); Some (JInt 2)] ]
              (Some (JInt 63)) (Some (JInt 2)) (Some (JStr "IPCA"))
              (JDict [("erro", JStr "tabela"); ("codigo", JInt 2)]) TypeError
              eq_refl eq_refl eq_refl eq_refl eq_refl)
    as (st' & Hrun & Hreq & _).
  exists TypeError, st'. split; [exact Hrun | exact Hreq].
Defined.

(** ** SeriesStage: the files it touches *)

Lemma so_dados_same st st' :
  disk st' = disk st → writes st' = writes st → so_dados st st'.
Proof.
  intros Hd Hw. split; [by rewrite Hd|]. exists []. by rewrite app_nil_r.
Qed.

Lemma so_dados_trans st1 st2 st3 :
  so_dados st1 st2 → so_dados st2 st3 → so_dados st1 st3.
Proof.
  intros [Hd1 (ws1 & Hw1 & Hf1)] [Hd2 (ws2 & Hw2 & Hf2)]. split.
  - intros p Hp. by rewrite Hd2, Hd1.
  - exists (ws1 ++ ws2). rewrite Hw2, Hw1, <-app_assoc. split; [done|].
    by apply Forall_app.
Qed.

Lemma gravar_so_dados df s_id w st :
  ∃ st',
    gravar_arquivo_parquet df ("dados_numericos_" +:+ s_id +:+ ".parquet")
      PASTA_SAIDA w st = (Ok tt, st')
    ∧ so_dados st st'.
Proof.
  rewrite gravar_arquivo_parquet_run, os_path_join_dados. eexists. split; [done|].
  destruct (df_empty df); [by apply so_dados_same|]. cbv zeta.
  destruct (to_parquet_ok w st _ df); (split; simpl;
    [|exists [caminho_dados s_id]; split; [done|]; repeat constructor; by eexists]).
  - intros p Hp. apply lookup_insert_ne. intros Heq. by apply (Hp s_id).
  - done.
Qed.

Lemma capturar_variavel_so_dados w st id_tabela cols variavel :
  ∃ r st', capturar_variavel id_tabela cols variavel w st = (r, st')
           ∧ so_dados st st'.
Proof.
  destruct (series_get_cases cols variavel "Id") as [[var_id Hid]|Hid];
    [|unfold capturar_variavel; rewrite bind_run, lift_run, Hid;
      eexists _, _; split; [done|]; by apply so_dados_same].
  destruct (series_get_cases cols variavel "DecimaisApresentacao")
    as [[var_decimais Hdec]|Hdec];
    [|unfold capturar_variavel; rewrite bind_run, lift_run, Hid; cbv beta iota;
      rewrite bind_run, lift_run, Hdec;
      eexists _, _; split; [done|]; by apply so_dados_same].
  destruct (series_get_cases cols variavel "Nome") as [[var_nome Hnome]|Hnome];
    [|unfold capturar_variavel; rewrite bind_run, lift_run, Hid; cbv beta iota;
      rewrite bind_run, lift_run, Hdec; cbv beta iota;
      rewrite bind_run, lift_run, Hnome;
      eexists _, _; split; [done|]; by apply so_dados_same].
  rewrite (capturar_variavel_run _ _ _ _ _ _ _ _ Hid Hdec Hnome).
  destruct (capturar_dados_api_any
              (url_dados (str_value w id_tabela) (str_cell w var_id)
                 (str_cell w var_decimais)) w
              (printed [MsgBuscandoVariavel (str_cell w var_nome) (str_cell w var_id)]
                 st)) as (r0 & ms & -> & Hr0).
  set (st0 := requested _ _).
  assert (so_dados st (printed ms st0)) as Hst0 by by apply so_dados_same.
  destruct r0 as [v|e|]; [|by eexists _, _|done].
  destruct (truthy v).
  - destruct (processar_dados_numericos v) as [df| |]; [|by eexists _, _..].
    rewrite bind_run.
    destruct (gravar_so_dados df (str_cell w var_id) w (printed ms st0))
      as (st2 & -> & Hst2).
    cbv beta iota. rewrite print_run. eexists _, _. split; [done|].
    eapply so_dados_trans; [exact Hst0|]. eapply so_dados_trans; [exact Hst2|].
    by apply so_dados_same.
  - rewrite print_run. eexists _, _. split; [done|].
    eapply so_dados_trans; [exact Hst0|]. by apply so_dados_same.
Qed.

Lemma for_each_variaveis_so_dados w id_tabela cols variaveis st :
  ∃ r st', for_each variaveis (capturar_variavel id_tabela cols) w st = (r, st')
           ∧ so_dados st st'.
Proof.
  revert st. induction variaveis as [|variavel variaveis IH]; intros st.
  - exists (Ok tt), st. split; [done|]. by apply so_dados_same.
  - simpl for_each. rewrite bind_run.
    destruct (capturar_variavel_so_dados w st id_tabela cols variavel)
      as (r1 & st1 & -> & H1).
    destruct r1 as [[]| |]; [|by eexists _, _..].
    destruct (IH st1) as (r & st' & -> & H2).
    exists r, st'. split; [done|]. by eapply so_dados_trans.
Qed.

Lemma orquestrar_captura_dados_numericos_so_dados dados w st :
  ∃ r st', orquestrar_captura_dados_numericos dados w st = (r, st')
           ∧ so_dados st st'.
Proof.
  rewrite orquestrar_captura_dados_numericos_any.
  destruct (disk st !! caminho_variaveis) as [df|];
    [|eexists _, _; split; [done|]; by apply so_dados_same].
  rewrite bind_run, lift_run.
  destruct (get_id_tabela dados) as [id_tabela| |];
    [|eexists _, _; split; [done|]; by apply so_dados_same..].
  cbv beta iota.
  destruct (for_each_variaveis_so_dados w id_tabela (columns df) (rows df)
              (printed [MsgEtapa2; MsgVariaveisLido caminho_variaveis] st))
    as (r & st' & -> & Hso).
  exists r, st'. split; [done|].
  eapply so_dados_trans; [|exact Hso]. by apply so_dados_same.
Qed.

(** X10.  Whatever it is given and however it ends, SeriesStage hands to
    [to_parquet] only paths of the form
    [saida_dados/dados_numericos_<id>.parquet], and leaves every other
    file as it was; in particular it never changes the variables file it
    is reading. *)
Theorem series_stage_so_dados dados w st :
  ∃ r st',
    orquestrar_captura_dados_numericos dados w st = (r, st')
    ∧ (∀ p, (∀ s_id, p ≠ caminho_dados s_id) → disk st' !! p = disk st !! p)
    ∧ disk st' !! caminho_variaveis = disk st !! caminho_variaveis
    ∧ ∃ ws, writes st' = writes st ++ ws
            ∧ Forall (λ p, ∃ s_id, p = caminho_dados s_id) ws.
Proof.
  destruct (orquestrar_captura_dados_numericos_so_dados dados w st)
    as (r & st' & Hrun & Hdisk & Hw).
  exists r, st'. split; [done|]. split; [done|]. split; [|done].
  apply Hdisk. intros s_id. apply caminho_variaveis_dados.
Qed.

(** ** MetadataStage: what it writes *)

Lemma orquestrar_captura_metadados_run w st :
  orquestrar_captura_metadados w st
  = match capturar_dados_api URL_IPCA_METADADOs w (printed [MsgEtapa1] st) with
    | (Ok v, st1) =>
        if truthy v then
          match for_each tabelas_para_extrair (gravar_tabela v) w st1 with
          | (Ok _, st2) => (Ok v, st2)
          | (Raise e, st2) => (Raise e, st2)
          | (OutOfModel, st2) => (OutOfModel, st2)
          end
        else (Ok JNull, st1)
    | (Raise e, st1) => (Raise e, st1)
    | (OutOfModel, st1) => (OutOfModel, st1)
    end.
Proof.
  unfold orquestrar_captura_metadados. rewrite bind_run, print_run, bind_run.
  destruct (capturar_dados_api _ w _) as [[v| |] st1]; [|done..].
  destruct (truthy v); cbn [negb]; cbv iota; [|done].
  rewrite bind_run.
  change (for_each tabelas_para_extrair _ w st1)
    with (for_each tabelas_para_extrair (gravar_tabela v) w st1).
  by destruct (for_each _ _ w st1) as [[[]| |] st2].
Qed.

(** One turn of the loop when the extraction returns a frame. *)
Lemma gravar_tabela_run documento nome_arquivo caminho df w st :
  extrair_lista_de_metadados documento caminho = Ok df →
  gravar_tabela documento (nome_arquivo, caminho) w st
  = (Ok tt,
     printed [MsgSeparador]
       (gravar_arquivo_parquet df nome_arquivo PASTA_SAIDA w st).2).
Proof.
  intros Hdf. unfold gravar_tabela. rewrite bind_run, lift_run, Hdf.
  cbv beta iota. rewrite bind_run, gravar_arquivo_parquet_run. done.
Qed.

Lemma apply_writes_snoc ws x d :
  apply_writes (ws ++ [x]) d = <[x.1 := x.2]> (apply_writes ws d).
Proof. unfold apply_writes. by rewrite foldl_snoc. Qed.

Lemma apply_writes_cons x ws d :
  apply_writes (x :: ws) d = apply_writes ws (<[x.1 := x.2]> d).
Proof. done. Qed.

(** The loop of MetadataStage when every extraction returns a frame. *)
Lemma for_each_tabelas_ok documento tabelas w st :
  extracoes_ok documento tabelas →
  ∃ st',
    for_each tabelas (gravar_tabela documento) w st = (Ok tt, st')
    ∧ requests st' = requests st
    ∧ writes st' = writes st ++ (plano_metadados documento tabelas).*1
    ∧ (∀ p, p ∉ (plano_metadados documento tabelas).*1 →
         disk st' !! p = disk st !! p)
    ∧ (sempre_grava w →
       disk st' = apply_writes (plano_metadados documento tabelas) (disk st)).
Proof.
  intros Hok. revert st.
  induction Hok as [|[nome caminho] tabelas [df Hdf] _ IH]; intros st.
  - exists st. split; [done|]. split; [done|]. simpl. by rewrite app_nil_r.
  - simpl in Hdf.
    cbn [for_each]. rewrite bind_run, (gravar_tabela_run _ _ _ _ _ _ Hdf).
    rewrite gravar_arquivo_parquet_run. cbv beta iota.
    assert (plano_metadados documento ((nome, caminho) :: tabelas)
            = (if df_empty df then []
               else [(os_path_join PASTA_SAIDA nome, df)])
              ++ plano_metadados documento tabelas) as ->.
    { unfold plano_metadados. simpl omap. unfold tabela_extraida at 1.
      cbn [fst snd]. rewrite Hdf. by destruct (df_empty df). }
    fold (plano_metadados documento tabelas).
    cbn [snd]. destruct (df_empty df); cbn [app].
    + destruct (IH (printed [MsgSeparador] (printed [MsgVazio nome] st)))
        as (st' & -> & Hreq & Hw & Hd & Hall).
      exists st'. by repeat split.
    + cbv zeta. set (p0 := os_path_join PASTA_SAIDA nome).
      rewrite fmap_cons. cbn [fst].
      destruct (to_parquet_ok w st p0 df) eqn:Hwok.
      * match goal with |- context [for_each tabelas _ w ?s] =>
          destruct (IH s) as (st' & -> & Hreq & Hw & Hd & Hall) end.
        exists st'. split; [done|]. split; [done|]. split.
        { rewrite Hw. simpl. by rewrite <-app_assoc. }
        split.
        { intros p Hp. apply not_elem_of_cons in Hp as [Hp0 Hp].
          rewrite (Hd p Hp). simpl. by apply lookup_insert_ne. }
        intros Hsempre. by rewrite (Hall Hsempre).
      * match goal with |- context [for_each tabelas _ w ?s] =>
          destruct (IH s) as (st' & -> & Hreq & Hw & Hd & Hall) end.
        exists st'. split; [done|]. split; [done|]. split.
        { rewrite Hw. simpl. by rewrite <-app_assoc. }
        split.
        { intros p Hp. apply not_elem_of_cons in Hp as [Hp0 Hp].
          by rewrite (Hd p Hp). }
        intros Hsempre. by rewrite Hsempre in Hwok.
Qed.

(** X11.  When the metadata request returns a document from which each
    of the five extractions returns a frame, MetadataStage returns that
    document after a single request; it hands to [to_parquet] exactly
    the files whose frame is not empty, in the order of
    [tabelas_para_extrair], and leaves every other file as it was: a
    table that comes out empty keeps the file of an earlier run. *)
Theorem metadados_escreve_plano w st documento :
  http_get w (printed [MsgEtapa1; MsgBuscando URL_IPCA_METADADOs] st)
    URL_IPCA_METADADOs = HttpBody (Some documento) →
  truthy documento = true →
  extracoes_ok documento tabelas_para_extrair →
  ∃ st',
    orquestrar_captura_metadados w st = (Ok documento, st')
    ∧ requests st' = requests st ++ [URL_IPCA_METADADOs]
    ∧ writes st'
      = writes st ++ (plano_metadados documento tabelas_para_extrair).*1
    ∧ (∀ p, p ∉ (plano_metadados documento tabelas_para_extrair).*1 →
         disk st' !! p = disk st !! p).
Proof.
  intros Hget Htruthy Hok.
  rewrite orquestrar_captura_metadados_run, capturar_dados_api_run.
  rewrite printed_printed. simpl app. rewrite Hget. cbv zeta beta iota.
  rewrite Htruthy.
  match goal with |- context [for_each _ _ w ?s] =>
    destruct (for_each_tabelas_ok documento tabelas_para_extrair w s Hok)
      as (st' & -> & Hreq & Hw & Hd & _) end.
  exists st'. split; [done|]. split; [by rewrite Hreq|]. split; [by rewrite Hw|].
  intros p Hp. by rewrite (Hd p Hp).
Qed.

Lemma metadados_escreve_plano_witness :
  ∃ st',
    orquestrar_captura_metadados mundo_exemplo estado_inicial
    = (Ok documento_exemplo, st')
    ∧ writes st' = ["saida_dados/variaveis.parquet"].
Proof.
  destruct (metadados_escreve_plano mundo_exemplo estado_inicial documento_exemplo)
    as (st' & Hrun & _ & Hw & _); [reflexivity | reflexivity | |].
  - repeat constructor; by eexists.
  - exists st'. split; [exact Hrun | exact Hw].
Defined.

Lemma lookup_apply_writes_NoDup ws d p df :
  NoDup ws.*1 → (p, df) ∈ ws → apply_writes ws d !! p = Some df.
Proof.
  induction ws as [|x ws IH] using rev_ind; intros Hnd Hin.
  - by apply not_elem_of_nil in Hin.
  - rewrite apply_writes_snoc. rewrite fmap_app in Hnd.
    apply NoDup_app in Hnd as (Hnd & Hx & _).
    apply elem_of_app in Hin as [Hin|Hin].
    + rewrite lookup_insert_ne; [by apply IH|].
      intros Heq. apply (Hx p).
      * by apply (list_elem_of_fmap_2 fst _ (p, df)).
      * rewrite <-Heq. simpl. apply list_elem_of_here.
    + apply list_elem_of_singleton in Hin as <-. apply lookup_insert_eq.
Qed.

Lemma plano_metadados_sublist documento tabelas :
  (plano_metadados documento tabelas).*1
  `sublist_of` (λ t, os_path_join PASTA_SAIDA t.1) <$> tabelas.
Proof.
  unfold plano_metadados. induction tabelas as [|t tabelas IH]; csimpl; [done|].
  unfold tabela_extraida at 1.
  destruct (extrair_lista_de_metadados documento t.2) as [df| |];
    [|by apply sublist_cons..].
  destruct (df_empty df); [by apply sublist_cons|]. csimpl.
  by apply sublist_skip.
Qed.

(** The five files have five different paths. *)
Lemma caminhos_tabelas_NoDup :
  NoDup ((λ t : string * list string, os_path_join PASTA_SAIDA t.1)
           <$> tabelas_para_extrair).
Proof.
  apply (bool_decide_unpack
           (NoDup ((λ t : string * list string, os_path_join PASTA_SAIDA t.1)
                     <$> tabelas_para_extrair))).
  by vm_compute.
Qed.

Lemma NoDup_sublist_paths documento :
  NoDup (plano_metadados documento tabelas_para_extrair).*1.
Proof.
  eapply sublist_NoDup; [apply caminhos_tabelas_NoDup|].
  apply plano_metadados_sublist.
Qed.

Lemma elem_of_plano_metadados documento tabelas nome caminho df :
  (nome, caminho) ∈ tabelas →
  extrair_lista_de_metadados documento caminho = Ok df →
  df_empty df = false →
  (os_path_join PASTA_SAIDA nome, df) ∈ plano_metadados documento tabelas.
Proof.
  intros Hin Hdf Hne. unfold plano_metadados. apply list_elem_of_omap.
  exists (nome, caminho). split; [done|].
  unfold tabela_extraida. simpl. by rewrite Hdf, Hne.
Qed.

(** MetadataStage in a world where every write succeeds. *)
Lemma metadados_disk w st documento :
  sempre_grava w →
  http_get w (printed [MsgEtapa1; MsgBuscando URL_IPCA_METADADOs] st)
    URL_IPCA_METADADOs = HttpBody (Some documento) →
  truthy documento = true →
  extracoes_ok documento tabelas_para_extrair →
  ∃ st',
    orquestrar_captura_metadados w st = (Ok documento, st')
    ∧ disk st'
      = apply_writes (plano_metadados documento tabelas_para_extrair) (disk st).
Proof.
  intros Hsempre Hget Htruthy Hok.
  rewrite orquestrar_captura_metadados_run, capturar_dados_api_run.
  rewrite printed_printed. simpl app. rewrite Hget. cbv zeta beta iota.
  rewrite Htruthy.
  match goal with |- context [for_each _ _ w ?s] =>
    destruct (for_each_tabelas_ok documento tabelas_para_extrair w s Hok)
      as (st' & -> & _ & _ & _ & Hall) end.
  exists st'. split; [done|]. by rewrite (Hall Hsempre).
Qed.

(** X12.  When every write succeeds, each of the five tables whose
    extraction is not empty is on disk after MetadataStage, under its own
    file name and with exactly the extracted frame: no table overwrites
    the file of another. *)
Theorem metadados_arquivos w st documento :
  sempre_grava w →
  http_get w (printed [MsgEtapa1; MsgBuscando URL_IPCA_METADADOs] st)
    URL_IPCA_METADADOs = HttpBody (Some documento) →
  truthy documento = true →
  extracoes_ok documento tabelas_para_extrair →
  ∃ st',
    orquestrar_captura_metadados w st = (Ok documento, st')
    ∧ ∀ nome_arquivo caminho df,
        (nome_arquivo, caminho) ∈ tabelas_para_extrair →
        extrair_lista_de_metadados documento caminho = Ok df →
        df_empty df = false →
        disk st' !! os_path_join PASTA_SAIDA nome_arquivo = Some df.
Proof.
  intros Hsempre Hget Htruthy Hok.
  destruct (metadados_disk w st documento Hsempre Hget Htruthy Hok)
    as (st' & Hrun & Hdisk).
  exists st'. split; [done|]. intros nome_arquivo caminho df Hin Hdf Hne.
  rewrite Hdisk. apply lookup_apply_writes_NoDup.
  - eapply NoDup_sublist_paths.
  - by eapply elem_of_plano_metadados.
Qed.

Lemma metadados_arquivos_witness :
  ∃ st' df,
    orquestrar_captura_metadados mundo_exemplo estado_inicial
    = (Ok documento_exemplo, st')
    ∧ extrair_lista_de_metadados documento_exemplo ["Variaveis"] = Ok df
    ∧ disk st' !! "saida_dados/variaveis.parquet" = Some df.
Proof.
  destruct (metadados_arquivos mundo_exemplo estado_inicial documento_exemplo)
    as (st' & Hrun & Hfiles); [done | reflexivity | reflexivity | |].
  - repeat constructor; by eexists.
  - eexists st', _. split; [exact Hrun|]. split; [reflexivity|].
    apply (Hfiles "variaveis.parquet" ["Variaveis"]);
      [apply list_elem_of_here | reflexivity | reflexivity].
Defined.

(** X13.  The variables go from MetadataStage to SeriesStage through the
    file: when every write succeeds and the extraction of [Variaveis]
    is not empty, SeriesStage, run after MetadataStage, loops over the
    rows of exactly the frame that was extracted from the document, in
    their order, with the columns of that frame. *)
Theorem variaveis_pelo_disco w st documento df :
  sempre_grava w →
  http_get w (printed [MsgEtapa1; MsgBuscando URL_IPCA_METADADOs] st)
    URL_IPCA_METADADOs = HttpBody (Some documento) →
  truthy documento = true →
  extracoes_ok documento tabelas_para_extrair →
  extrair_lista_de_metadados documento ["Variaveis"] = Ok df →
  df_empty df = false →
  ∃ st',
    orquestrar_captura_metadados w st = (Ok documento, st')
    ∧ orquestrar_captura_dados_numericos documento w st'
      = (id_tabela ← lift (get_id_tabela documento);
         for_each (rows df) (capturar_variavel id_tabela (columns df)))
          w (printed [MsgEtapa2; MsgVariaveisLido caminho_variaveis] st').
Proof.
  intros Hsempre Hget Htruthy Hok Hdf Hne.
  destruct (metadados_disk w st documento Hsempre Hget Htruthy Hok)
    as (st' & Hrun & Hdisk).
  exists st'. split; [done|].
  rewrite orquestrar_captura_dados_numericos_any, Hdisk.
  rewrite (lookup_apply_writes_NoDup _ _ caminho_variaveis df); [done| |].
  - eapply NoDup_sublist_paths.
  - apply (elem_of_plano_metadados documento tabelas_para_extrair
             "variaveis.parquet" ["Variaveis"] df); [|done|done].
    apply list_elem_of_here.
Qed.

Lemma variaveis_pelo_disco_witness :
  ∃ st',
    orquestrar_captura_metadados mundo_exemplo estado_inicial
    = (Ok documento_exemplo, st')
    ∧ orquestrar_captura_dados_numericos documento_exemplo mundo_exemplo st'
      = for_each [[Some (JInt 63); Some (JStr "IPCA"); Some (JInt 2)]]
          (capturar_variavel (JStr "1737")
             [JStr "Id"; JStr "Nome"; JStr "DecimaisApresentacao"])
          mundo_exemplo
          (printed [MsgEtapa2; MsgVariaveisLido caminho_variaveis] st').
Proof.
  destruct (variaveis_pelo_disco mundo_exemplo estado_inicial documento_exemplo
              (mkDataFrame [JStr "Id"; JStr "Nome"; JStr "DecimaisApresentacao"]
                 [[Some (JInt 63); Some (JStr "IPCA"); Some (JInt 2)]]))
    as (st' & Hrun & Hserie);
    [done | reflexivity | reflexivity | | reflexivity | reflexivity |].
  - repeat constructor; by eexists.
  - exists st'. split; [exact Hrun | exact Hserie].
Defined.

(** ** MetadataStage: an extraction that raises *)

(** X14.  MetadataStage does not catch what an extraction raises.  When
    the document has, under [Periodos], a value that is neither a mapping
    nor [None] (a list of periods, say), the third extraction raises
    [AttributeError]: the stage stops there, having handed to
    [to_parquet] at most the first two files, and [main] ends with the
    same exception without running SeriesStage. *)
Theorem metadados_extracao_raises w st fields v df1 df2 :
  http_get w (printed [MsgEtapa1; MsgBuscando URL_IPCA_METADADOs] st)
    URL_IPCA_METADADOs = HttpBody (Some (JDict fields)) →
  field "Periodos" fields = Some v → is_dict v = false → v ≠ JNull →
  extrair_lista_de_metadados (JDict fields) ["Variaveis"] = Ok df1 →
  extrair_lista_de_metadados (JDict fields) ["UnidadesDeMedida"] = Ok df2 →
  ∃ st',
    orquestrar_captura_metadados w st = (Raise AttributeError, st')
    ∧ (∃ ws, writes st' = writes st ++ ws
             ∧ ws ⊆ ["saida_dados/variaveis.parquet";
                     "saida_dados/unidades_de_medida.parquet"])
    ∧ ∀ st0,
        makedirs_ok w (printed [MsgInicio] st0) PASTA_SAIDA = true →
        st = with_dir PASTA_SAIDA (printed [MsgInicio] st0) →
        main w st0 = (Raise AttributeError, st').
Proof.
  intros Hget Hper Hd Hv Hdf1 Hdf2.
  assert (extrair_lista_de_metadados (JDict fields) ["Periodos"; "Periodos"]
          = Raise AttributeError) as Hdf3.
  { unfold extrair_lista_de_metadados.
    change ["Periodos"; "Periodos"] with (["Periodos"] ++ "Periodos" :: []).
    rewrite (percorrer_not_mapping (JDict fields) ["Periodos"] "Periodos" [] v);
      [done| |done|done].
    simpl. by rewrite Hper. }
  assert (truthy (JDict fields) = true) as Htruthy by by destruct fields.
  assert (∃ st', orquestrar_captura_metadados w st = (Raise AttributeError, st')
            ∧ ∃ ws, writes st' = writes st ++ ws
                    ∧ ws ⊆ ["saida_dados/variaveis.parquet";
                            "saida_dados/unidades_de_medida.parquet"])
    as (st' & Hrun & Hws).
  { rewrite orquestrar_captura_metadados_run, capturar_dados_api_run.
    rewrite printed_printed. simpl app. rewrite Hget. cbv zeta beta iota.
    rewrite Htruthy. unfold tabelas_para_extrair. cbn [for_each].
    rewrite bind_run, (gravar_tabela_run _ _ _ _ _ _ Hdf1). cbv beta iota.
    rewrite bind_run, (gravar_tabela_run _ _ _ _ _ _ Hdf2). cbv beta iota.
    rewrite bind_run. unfold gravar_tabela at 1.
    rewrite bind_run, lift_run, Hdf3. cbv beta iota.
    eexists. split; [done|].
    rewrite !gravar_arquivo_parquet_run. cbn [snd].
    destruct (df_empty df1), (df_empty df2); cbv zeta;
      repeat match goal with |- context [to_parquet_ok ?a ?b ?c ?d] =>
               destruct (to_parquet_ok a b c d) end;
      simpl;
      try change (PASTA_SAIDA +:+ "/" +:+ "variaveis.parquet")
        with "saida_dados/variaveis.parquet";
      try change (PASTA_SAIDA +:+ "/" +:+ "unidades_de_medida.parquet")
        with "saida_dados/unidades_de_medida.parquet";
      eexists;
      (split;
       [first [symmetry; apply app_nil_r | reflexivity
              | rewrite <-app_assoc; reflexivity]
       |intros x Hx;
        repeat (apply elem_of_cons in Hx as [->|Hx]; [by repeat constructor|]);
        by apply not_elem_of_nil in Hx]). }
  exists st'. split; [done|]. split; [done|].
  intros st0 Hmk ->. unfold main.
  rewrite bind_run, print_run. unfold makedirs at 1. rewrite bind_run, Hmk.
  fold (with_dir PASTA_SAIDA (printed [MsgInicio] st0)).
  by rewrite bind_run, Hrun.
Qed.

Lemma metadados_extracao_raises_witness :
  ∃ st',
    orquestrar_captura_metadados mundo_periodos_lista
      (with_dir PASTA_SAIDA (printed [MsgInicio] estado_inicial))
    = (Raise AttributeError, st')
    ∧ main mundo_periodos_lista estado_inicial = (Raise AttributeError, st').
Proof.
  destruct (metadados_extracao_raises mundo_periodos_lista
              (with_dir PASTA_SAIDA (printed [MsgInicio] estado_inicial))
              [("Variaveis",
                JList [JDict [("Id", JInt 63); ("Nome", JStr "IPCA");
                              ("DecimaisApresentacao", JInt 2)]]);
               ("Periodos", JList [JStr "202001"; JStr "202002"])]
              (JList [JStr "202001"; JStr "202002"])
              (mkDataFrame [JStr "Id"; JStr "Nome"; JStr "DecimaisApresentacao"]
                 [[Some (JInt 63); Some (JStr "IPCA"); Some (JInt 2)]])
              DataFrame_vazio)
    as (st' & Hrun & _ & Hmain);
    [reflexivity | reflexivity | reflexivity | discriminate
    | reflexivity | reflexivity |].
  exists st'. split; [exact Hrun|].
  apply (Hmain estado_inicial); reflexivity.
Defined.

(** ** Running the pipeline twice *)

Lemma apply_writes_app ws1 ws2 d :
  apply_writes (ws1 ++ ws2) d = apply_writes ws2 (apply_writes ws1 d).
Proof. unfold apply_writes. apply foldl_app. Qed.

Lemma lookup_apply_writes ws d p :
  apply_writes ws d !! p = from_option Some (d !! p) (last_write p ws).
Proof.
  revert d. induction ws as [|x ws IH]; intros d; [done|].
  rewrite apply_writes_cons, IH. simpl.
  destruct (last_write p ws); [done|]. simpl.
  case_decide as Hx; simpl.
  - rewrite <-Hx. apply lookup_insert_eq.
  - by apply lookup_insert_ne.
Qed.

(** Doing the same writes again changes nothing. *)
Lemma apply_writes_idemp ws d :
  apply_writes ws (apply_writes ws d) = apply_writes ws d.
Proof.
  apply map_eq. intros p. rewrite !lookup_apply_writes.
  by destruct (last_write p ws).
Qed.

Lemma lookup_apply_writes_ext ws d d' p :
  d !! p = d' !! p → apply_writes ws d !! p = apply_writes ws d' !! p.
Proof. intros Hp. by rewrite !lookup_apply_writes, Hp. Qed.

Section Stable.
Context (w : World) (Hw : mundo_estavel w).

Lemma planned_state_free {A} (m : M A) (r : result A) :
  (∀ st, (m w st).1 = r ∧ disk (m w st).2 = disk st) → planned w m.
Proof. intros H. exists r, []. apply H. Qed.

Lemma planned_ret {A} (a : A) : planned w (mret a).
Proof. by apply (planned_state_free _ (Ok a)). Qed.

Lemma planned_lift {A} (r : result A) : planned w (lift r).
Proof. by apply (planned_state_free _ r). Qed.

Lemma planned_print m : planned w (print m).
Proof. by apply (planned_state_free _ (Ok tt)). Qed.

Lemma planned_format_value v : planned w (format_value v).
Proof. by apply (planned_state_free _ (Ok (str_value w v))). Qed.

Lemma planned_format_cell x : planned w (format_cell x).
Proof. by apply (planned_state_free _ (Ok (str_cell w x))). Qed.

Lemma planned_requests_get url : planned w (requests_get url).
Proof.
  destruct Hw as (Hhttp & _ & _).
  apply (planned_state_free _
           (match http_get w estado_inicial url with
            | HttpFail => Raise RequestException
            | response => Ok response
            end)).
  intros st. unfold requests_get. rewrite (Hhttp st estado_inicial url).
  by destruct (http_get w estado_inicial url).
Qed.

Lemma planned_makedirs pasta : planned w (makedirs pasta).
Proof.
  destruct Hw as (_ & _ & Hmk).
  apply (planned_state_free _
           (if makedirs_ok w estado_inicial pasta then Ok tt else Raise OSError)).
  intros st. unfold makedirs. rewrite (Hmk st estado_inicial pasta).
  by destruct (makedirs_ok w estado_inicial pasta).
Qed.

Lemma planned_to_parquet df caminho : planned w (to_parquet df caminho).
Proof.
  destruct Hw as (_ & Hpq & _).
  exists (if to_parquet_ok w estado_inicial caminho df then Ok tt
          else Raise OSError),
         (if to_parquet_ok w estado_inicial caminho df then [(caminho, df)]
          else []).
  intros st. unfold to_parquet. rewrite (Hpq st estado_inicial caminho df).
  by destruct (to_parquet_ok w estado_inicial caminho df).
Qed.

Lemma planned_bind {A B} (m : M A) (f : A → M B) :
  planned w m → (∀ a, planned w (f a)) → planned w (m ≫= f).
Proof.
  intros (r & ws & Hm) Hf. destruct r as [a| |].
  - destruct (Hf a) as (r' & ws' & Hfa). exists r', (ws ++ ws').
    intros st. rewrite bind_run. destruct (Hm st) as [Hr Hd].
    destruct (m w st) as [r0 st1]. simpl in Hr, Hd. subst r0.
    destruct (Hfa st1) as [Hr' Hd']. split; [done|].
    by rewrite Hd', Hd, apply_writes_app.
  - exists (Raise e), ws. intros st. rewrite bind_run.
    destruct (Hm st) as [Hr Hd]. destruct (m w st) as [r0 st1].
    simpl in Hr, Hd. by subst r0.
  - exists OutOfModel, ws. intros st. rewrite bind_run.
    destruct (Hm st) as [Hr Hd]. destruct (m w st) as [r0 st1].
    simpl in Hr, Hd. by subst r0.
Qed.

Lemma planned_try_except {A} (body : M A) handlers :
  planned w body → Forall (λ h, planned w h.2) handlers →
  planned w (try_except body handlers).
Proof.
  intros (r & ws & Hm) Hh.
  assert (∀ e h, find_handler e handlers = Some h → planned w h) as Hfind.
  { intros e h. induction Hh as [|[cls h0] handlers Hh0 _ IH]; [done|].
    simpl. destruct (exn_isinstance e cls); [by intros [= <-]|done]. }
  destruct r as [a|e|].
  - exists (Ok a), ws. intros st. unfold try_except.
    destruct (Hm st) as [Hr Hd]. destruct (body w st) as [r0 st1].
    simpl in Hr, Hd. by subst r0.
  - destruct (find_handler e handlers) as [h|] eqn:Hfh.
    + destruct (Hfind e h Hfh) as (r' & ws' & Hhr). exists r', (ws ++ ws').
      intros st. unfold try_except.
      destruct (Hm st) as [Hr Hd]. destruct (body w st) as [r0 st1].
      simpl in Hr, Hd. subst r0. rewrite Hfh.
      destruct (Hhr st1) as [Hr' Hd']. split; [done|].
      by rewrite Hd', Hd, apply_writes_app.
    + exists (Raise e), ws. intros st. unfold try_except.
      destruct (Hm st) as [Hr Hd]. destruct (body w st) as [r0 st1].
      simpl in Hr, Hd. subst r0. by rewrite Hfh.
  - exists OutOfModel, ws. intros st. unfold try_except.
    destruct (Hm st) as [Hr Hd]. destruct (body w st) as [r0 st1].
    simpl in Hr, Hd. by subst r0.
Qed.

Lemma planned_for_each {A} (items : list A) (body : A → M unit) :
  (∀ x, planned w (body x)) → planned w (for_each items body).
Proof.
  intros Hbody. induction items as [|x items IH]; simpl.
  - apply planned_ret.
  - apply planned_bind; [apply Hbody|]. by intros _.
Qed.

Lemma planned_capturar_dados_api url : planned w (capturar_dados_api url).
Proof.
  unfold capturar_dados_api.
  apply planned_bind; [apply planned_print|]. intros _.
  apply planned_try_except.
  - apply planned_bind; [apply planned_requests_get|]. intros response.
    apply planned_bind; [apply planned_print|]. intros _.
    apply planned_lift.
  - repeat constructor; simpl;
      (apply planned_bind; [apply planned_print|]; intros _; apply planned_ret).
Qed.

Lemma planned_gravar df nome_arquivo pasta :
  planned w (gravar_arquivo_parquet df nome_arquivo pasta).
Proof.
  unfold gravar_arquivo_parquet. destruct (df_empty df); [apply planned_print|].
  cbv zeta. apply planned_try_except.
  - apply planned_bind; [apply planned_to_parquet|]. intros _.
    apply planned_print.
  - repeat constructor. apply planned_print.
Qed.

Lemma planned_metadados : planned w orquestrar_captura_metadados.
Proof.
  unfold orquestrar_captura_metadados.
  apply planned_bind; [apply planned_print|]. intros _.
  apply planned_bind; [apply planned_capturar_dados_api|]. intros v.
  destruct (negb (truthy v)); [apply planned_ret|].
  apply planned_bind; [|intros _; apply planned_ret].
  apply planned_for_each. intros [nome caminho].
  apply planned_bind; [apply planned_lift|]. intros df.
  apply planned_bind; [apply planned_gravar|]. intros _.
  apply planned_print.
Qed.

Lemma planned_capturar_variavel id_tabela cols variavel :
  planned w (capturar_variavel id_tabela cols variavel).
Proof.
  unfold capturar_variavel.
  apply planned_bind; [apply planned_lift|]. intros var_id.
  apply planned_bind; [apply planned_lift|]. intros var_decimais.
  apply planned_bind; [apply planned_lift|]. intros var_nome.
  apply planned_bind; [apply planned_format_cell|]. intros s_nome.
  apply planned_bind; [apply planned_format_cell|]. intros s_id.
  apply planned_bind; [apply planned_print|]. intros _.
  apply planned_bind; [apply planned_format_value|]. intros s_tabela.
  apply planned_bind; [apply planned_format_cell|]. intros s_decimais.
  apply planned_bind; [apply planned_capturar_dados_api|]. intros v.
  apply planned_bind; [|intros _; apply planned_print].
  destruct (truthy v); [|apply planned_ret].
  apply planned_bind; [apply planned_lift|]. intros df.
  apply planned_gravar.
Qed.

(** SeriesStage, once the variables table it reads is fixed. *)
Lemma planned_series dados (lido : option DataFrame) :
  ∃ r ws, ∀ st,
    disk st !! caminho_variaveis = lido →
    (orquestrar_captura_dados_numericos dados w st).1 = r
    ∧ disk (orquestrar_captura_dados_numericos dados w st).2
      = apply_writes ws (disk st).
Proof.
  destruct lido as [df|].
  - assert (planned w
              (id_tabela ← lift (get_id_tabela dados);
               for_each (rows df) (capturar_variavel id_tabela (columns df))))
      as (r & ws & Hp).
    { apply planned_bind; [apply planned_lift|]. intros id_tabela.
      apply planned_for_each. intros variavel.
      apply planned_capturar_variavel. }
    exists r, ws. intros st Hdisk.
    rewrite orquestrar_captura_dados_numericos_any, Hdisk.
    exact (Hp (printed [MsgEtapa2; MsgVariaveisLido caminho_variaveis] st)).
  - exists (Ok tt), []. intros st Hdisk.
    by rewrite orquestrar_captura_dados_numericos_any, Hdisk.
Qed.
End Stable.

Lemma main_run w st :
  main w st
  = match main_inicio w st with
    | (Ok metadados, st1) => main_fim metadados w st1
    | (Raise e, st1) => (Raise e, st1)
    | (OutOfModel, st1) => (OutOfModel, st1)
    end.
Proof.
  unfold main, main_inicio, main_fim. rewrite !bind_run, !print_run.
  rewrite !(bind_run (makedirs PASTA_SAIDA)).
  destruct (makedirs PASTA_SAIDA w (printed [MsgInicio] st)) as [[[]| |] st1];
    [|done..].
  rewrite (bind_run orquestrar_captura_metadados).
  by destruct (orquestrar_captura_metadados w st1) as [[metadados| |] st2].
Qed.

Lemma planned_main_inicio w : mundo_estavel w → planned w main_inicio.
Proof.
  intros Hw. unfold main_inicio.
  apply planned_bind; [apply planned_print|]. intros _.
  apply planned_bind; [by apply planned_makedirs|]. intros _.
  by apply planned_metadados.
Qed.

(** The second part of [main], once the variables table on disk is
    fixed: it ends the same way, makes the same writes, and leaves the
    variables file alone. *)
Lemma planned_main_fim w metadados (lido : option DataFrame) :
  mundo_estavel w →
  ∃ r ws, ∀ st,
    disk st !! caminho_variaveis = lido →
    (main_fim metadados w st).1 = r
    ∧ disk (main_fim metadados w st).2 = apply_writes ws (disk st)
    ∧ disk (main_fim metadados w st).2 !! caminho_variaveis = lido.
Proof.
  intros Hw. unfold main_fim. destruct (truthy metadados).
  - destruct (planned_series w Hw metadados lido) as (r & ws & Hp).
    exists (match r with Ok _ => Ok tt | Raise e => Raise e
                    | OutOfModel => OutOfModel end), ws.
    intros st Hdisk. destruct (Hp st Hdisk) as [Hr Hd].
    destruct (orquestrar_captura_dados_numericos_so_dados metadados w st)
      as (r0 & st1 & Hrun & Hso & _).
    rewrite bind_run. rewrite Hrun in Hr, Hd |- *. simpl in Hr, Hd. subst r0.
    assert (disk st1 !! caminho_variaveis = lido) as Hcv.
    { rewrite Hso; [done|]. intros s_id. apply caminho_variaveis_dados. }
    by destruct r as [[]| |].
  - exists (Ok tt), []. intros st Hdisk. by rewrite bind_run, !print_run.
Qed.

(** X15.  In a world whose answers do not depend on what happened
    before, running [main] a second time ends the same way as the first
    run and leaves every file exactly as the first run left it. *)
Theorem main_idempotente w st0 r1 st1 r2 st2 :
  mundo_estavel w →
  main w st0 = (r1, st1) →
  main w st1 = (r2, st2) →
  r2 = r1 ∧ disk st2 = disk st1.
Proof.
  intros Hw. rewrite !main_run.
  destruct (planned_main_inicio w Hw) as (rA & wsA & HA).
  destruct (HA st0) as [HrA0 HdA0]. destruct (HA st1) as [HrA1 HdA1].
  destruct (main_inicio w st0) as [rA0 sA0], (main_inicio w st1) as [rA1 sA1].
  simpl in HrA0, HdA0, HrA1, HdA1. subst rA0 rA1.
  destruct rA as [metadados|e|].
  - destruct (planned_main_fim w metadados (disk sA0 !! caminho_variaveis) Hw)
      as (rT & wsT & HT).
    destruct (HT sA0 eq_refl) as (HrT0 & HdT0 & Hcv0).
    intros Hrun1 Hrun2. rewrite Hrun1 in HrT0, HdT0, Hcv0.
    simpl in HrT0, HdT0, Hcv0.
    assert (disk sA1 !! caminho_variaveis = disk sA0 !! caminho_variaveis)
      as Hcv1.
    { rewrite HdA1.
      rewrite (lookup_apply_writes_ext wsA (disk st1) (disk sA0)) by done.
      by rewrite HdA0, apply_writes_idemp. }
    destruct (HT sA1 Hcv1) as (HrT1 & HdT1 & _).
    rewrite Hrun2 in HrT1, HdT1. simpl in HrT1, HdT1.
    split; [congruence|].
    assert (disk st1 = apply_writes (wsA ++ wsT) (disk st0)) as H1
      by by rewrite apply_writes_app, <-HdA0.
    rewrite HdT1, HdA1, <-apply_writes_app, H1. apply apply_writes_idemp.
  - intros [= <- <-] [= <- <-]. split; [done|].
    by rewrite HdA1, HdA0, apply_writes_idemp.
  - intros [= <- <-] [= <- <-]. split; [done|].
    by rewrite HdA1, HdA0, apply_writes_idemp.
Qed.

Lemma mundo_exemplo_estavel : mundo_estavel mundo_exemplo.
Proof. by repeat split. Qed.

Lemma main_idempotente_witness :
  (main mundo_exemplo (main mundo_exemplo estado_inicial).2).1
  = (main mundo_exemplo estado_inicial).1
  ∧ disk (main mundo_exemplo (main mundo_exemplo estado_inicial).2).2
    = disk (main mundo_exemplo estado_inicial).2.
Proof.
  apply (main_idempotente mundo_exemplo estado_inicial
           (main mundo_exemplo estado_inicial).1
           (main mundo_exemplo estado_inicial).2
           (main mundo_exemplo (main mundo_exemplo estado_inicial).2).1
           (main mundo_exemplo (main mundo_exemplo estado_inicial).2).2
           mundo_exemplo_estavel);
    apply surjective_pairing.
Defined.

(** ** SeriesStage: a variable whose series arrives *)

Lemma processar_nao_vazio_truthy v df :
  processar_dados_numericos v = Ok df → df_empty df = false → truthy v = true.
Proof.
  unfold processar_dados_numericos. destruct (truthy v); [done|].
  simpl. by intros [= <-].
Qed.

(** X16.  For a variable whose answer normalizes to a frame that is not
    empty, in a world where writes succeed, the iteration sends its one
    request, stores exactly that frame under
    [saida_dados/dados_numericos_<Id>.parquet], changes no other file and
    returns normally. *)
Theorem capturar_variavel_grava
    w st id_tabela cols variavel var_id var_decimais var_nome v df :
  sempre_grava w →
  series_get cols variavel "Id" = Ok var_id →
  series_get cols variavel "DecimaisApresentacao" = Ok var_decimais →
  series_get cols variavel "Nome" = Ok var_nome →
  let url := url_dados (str_value w id_tabela) (str_cell w var_id)
               (str_cell w var_decimais) in
  http_get w
    (printed [MsgBuscandoVariavel (str_cell w var_nome) (str_cell w var_id);
              MsgBuscando url] st) url = HttpBody (Some v) →
  processar_dados_numericos v = Ok df →
  df_empty df = false →
  ∃ st',
    capturar_variavel id_tabela cols variavel w st = (Ok tt, st')
    ∧ disk st' = <[caminho_dados (str_cell w var_id) := df]> (disk st)
    ∧ requests st' = requests st ++ [url]
    ∧ writes st' = writes st ++ [caminho_dados (str_cell w var_id)].
Proof.
  intros Hsempre Hid Hdec Hnome url Hget Hproc Hne.
  rewrite (capturar_variavel_run _ _ _ _ _ _ _ _ Hid Hdec Hnome).
  fold url. rewrite capturar_dados_api_run, printed_printed. simpl app.
  rewrite Hget. cbv zeta beta iota.
  rewrite (processar_nao_vazio_truthy _ _ Hproc Hne), Hproc.
  rewrite bind_run, gravar_arquivo_parquet_run, Hne, os_path_join_dados.
  cbv zeta. rewrite Hsempre. cbv beta iota. rewrite print_run.
  by eexists.
Qed.

Lemma capturar_variavel_grava_witness :
  ∃ st',
    capturar_variavel (JStr "1737")
      [JStr "Id"; JStr "Nome"; JStr "DecimaisApresentacao"]
      [Some (JInt 63); Some (JStr "IPCA"); Some (JInt 2)]
      mundo_envelope estado_inicial = (Ok tt, st')
    ∧ disk st'
      = <[ "saida_dados/dados_numericos_63.parquet" :=
             mkDataFrame [JStr "Valor"; JStr "Mes"]
               [[Some (JStr "0.21"); Some (JStr "202001")]] ]> ∅.
Proof.
  destruct (capturar_variavel_grava mundo_envelope estado_inicial (JStr "1737")
              [JStr "Id"; JStr "Nome"; JStr "DecimaisApresentacao"]
              [Some (JInt 63); Some (JStr "IPCA"); Some (JInt 2)]
              (Some (JInt 63)) (Some (JInt 2)) (Some (JStr "IPCA"))
              envelope_exemplo
              (mkDataFrame [JStr "Valor"; JStr "Mes"]
                 [[Some (JStr "0.21"); Some (JStr "202001")]]))
    as (st' & Hrun & Hdisk & _);
    [done | reflexivity | reflexivity | reflexivity | reflexivity
    | reflexivity | reflexivity |].
  exists st'. split; [exact Hrun | exact Hdisk].
Defined.

(** ** MetadataStage: a fetch that fails *)

(** X17.  When the metadata request fails, or its body is not JSON,
    MetadataStage returns [None] after that single request, with nothing
    extracted or written; [main] then prints that the second stage is
    cancelled and ends normally. *)
Theorem metadados_fetch_falha w st :
  http_get w (printed [MsgEtapa1; MsgBuscando URL_IPCA_METADADOs] st)
    URL_IPCA_METADADOs = HttpFail
  ∨ http_get w (printed [MsgEtapa1; MsgBuscando URL_IPCA_METADADOs] st)
      URL_IPCA_METADADOs = HttpBody None →
  ∃ st',
    orquestrar_captura_metadados w st = (Ok JNull, st')
    ∧ requests st' = requests st ++ [URL_IPCA_METADADOs]
    ∧ disk st' = disk st ∧ writes st' = writes st
    ∧ ∀ st0,
        makedirs_ok w (printed [MsgInicio] st0) PASTA_SAIDA = true →
        st = with_dir PASTA_SAIDA (printed [MsgInicio] st0) →
        main w st0 = (Ok tt, printed [MsgEtapa2Cancelada; MsgFim] st').
Proof.
  intros Hfail.
  assert (∃ st', orquestrar_captura_metadados w st = (Ok JNull, st')
            ∧ requests st' = requests st ++ [URL_IPCA_METADADOs]
            ∧ disk st' = disk st ∧ writes st' = writes st)
    as (st' & Hrun & Hreq & Hd & Hwr).
  { rewrite orquestrar_captura_metadados_run, capturar_dados_api_run.
    rewrite printed_printed. simpl app. cbv zeta.
    destruct Hfail as [-> | ->]; by eexists. }
  exists st'. do 4 (split; [done|]).
  intros st0 Hmk ->. unfold main.
  rewrite bind_run, print_run. unfold makedirs at 1. rewrite bind_run, Hmk.
  fold (with_dir PASTA_SAIDA (printed [MsgInicio] st0)).
  rewrite bind_run, Hrun. cbv beta iota. simpl truthy. cbv iota.
  by rewrite bind_run, !print_run, printed_printed.
Qed.

Lemma metadados_fetch_falha_witness :
  ∃ st',
    orquestrar_captura_metadados mundo_sem_rede
      (with_dir PASTA_SAIDA (printed [MsgInicio] estado_inicial))
    = (Ok JNull, st')
    ∧ main mundo_sem_rede estado_inicial
      = (Ok tt, printed [MsgEtapa2Cancelada; MsgFim] st').
Proof.
  destruct (metadados_fetch_falha mundo_sem_rede
              (with_dir PASTA_SAIDA (printed [MsgInicio] estado_inicial)))
    as (st' & Hrun & _ & _ & _ & Hmain); [left; reflexivity|].
  exists st'. split; [exact Hrun|].
  apply (Hmain estado_inicial); reflexivity.
Defined.
